(** * Creational design patterns of [design_patterns/intro.py]

    A shallow embedding of the Singleton, Factory, Abstract Factory,
    Builder and Prototype classes of
    [src/advance_python_learn_resource/design_patterns/intro.py], over a
    small model of the Python object store: instances live in a heap and
    are handled through references, so that two names for one object see
    each other's writes. *)

From Stdlib Require Import ZArith String Ascii List Bool Lia DecimalString.
From stdpp Require Import base list strings.
Import ListNotations.

#[local] Set Warnings "-register-all".

Local Open Scope string_scope.
Local Open Scope list_scope.

(** ** Python values and objects *)

Definition loc := nat.

(** Values that the attributes and arguments of the modelled classes
    hold.  Instances are reached through [VRef].  A list is kept by value
    inside the attribute that owns it: in the source every list is created
    by [Pizza.__init__] or by a list literal at a call site and is reached
    only through the pizza that holds it, so [append] and [extend] are
    modelled as an update of the owning attribute.  One list object held
    in two places is therefore not represented: the properties that give
    the contents of a list after a call take arguments that bring no list
    of the caller into a pizza ([unshared_arg] below), and the others
    speak of what holds whether or not lists are shared. *)
Inductive pyval : Type :=
  | VNone
  | VBool (b : bool)
  | VInt (z : Z)
  | VStr (s : string)
  | VList (items : list pyval)
  | VRef (l : loc).

(** The classes of the file. *)
Inductive class : Type :=
  | Singleton
  | Shape | Circle | Square
  | ShapeFactory
  | GUIFactory | WindowsGUIFactory | MacGUIFactory
  | Button | TextBox
  | WindowsButton | MacButton | WindowsTextBox | MacTextBox
  | Pizza
  | PizzaBuilder | VeggiePizzaBuilder | MeatLoversPizzaBuilder
  | Prototype | ConcretePrototype1 | ConcretePrototype2.

Definition class_eqb (c d : class) : bool :=
  match c, d with
  | Singleton, Singleton | Shape, Shape | Circle, Circle | Square, Square
  | ShapeFactory, ShapeFactory
  | GUIFactory, GUIFactory | WindowsGUIFactory, WindowsGUIFactory
  | MacGUIFactory, MacGUIFactory
  | Button, Button | TextBox, TextBox
  | WindowsButton, WindowsButton | MacButton, MacButton
  | WindowsTextBox, WindowsTextBox | MacTextBox, MacTextBox
  | Pizza, Pizza
  | PizzaBuilder, PizzaBuilder | VeggiePizzaBuilder, VeggiePizzaBuilder
  | MeatLoversPizzaBuilder, MeatLoversPizzaBuilder
  | Prototype, Prototype | ConcretePrototype1, ConcretePrototype1
  | ConcretePrototype2, ConcretePrototype2 => true
  | _, _ => false
  end.

(** The base class written in each [class] statement ([object] is [None]). *)
Definition base (c : class) : option class :=
  match c with
  | Circle | Square => Some Shape
  | WindowsGUIFactory | MacGUIFactory => Some GUIFactory
  | WindowsButton | MacButton => Some Button
  | WindowsTextBox | MacTextBox => Some TextBox
  | VeggiePizzaBuilder | MeatLoversPizzaBuilder => Some PizzaBuilder
  | ConcretePrototype1 | ConcretePrototype2 => Some Prototype
  | _ => None
  end.

(** [issubclass c d]; the hierarchy of the file is one level deep. *)
Definition issubclass (c d : class) : bool :=
  class_eqb c d ||
  match base c with
  | Some b => class_eqb b d
  | None => false
  end.

(** An instance: its class and its [__dict__], in insertion order. *)
Record instance : Type := Instance {
  cls : class;
  dict : list (string * pyval)
}.

Fixpoint dict_get (d : list (string * pyval)) (k : string) : option pyval :=
  match d with
  | [] => None
  | (k', v) :: d' => if String.eqb k' k then Some v else dict_get d' k
  end.

Fixpoint dict_set (d : list (string * pyval)) (k : string) (v : pyval)
  : list (string * pyval) :=
  match d with
  | [] => [(k, v)]
  | (k', v') :: d' =>
      if String.eqb k' k then (k', v) :: d' else (k', v') :: dict_set d' k v
  end.

(** The state of a process: the heap of instances, the class attribute
    [Singleton._instance], and the lines written by [print]. *)
Record world : Type := World {
  heap : list instance;
  Singleton_instance : pyval;
  stdout : list string
}.

(** The state a process starts in: no object, [_instance = None]. *)
Definition initial_world : world :=
  {| heap := []; Singleton_instance := VNone; stdout := [] |}.

Inductive exn : Type :=
  | AttributeError (name : string)
  | TypeError (msg : string)
  | NotImplementedError (msg : string).

(** The result of running a piece of code: it returns, it raises, or it
    has followed a reference to no object ([Wrong]), which no Python
    execution does. *)
Inductive outcome (A : Type) : Type :=
  | Ret (a : A) (w : world)
  | Raise (e : exn) (w : world)
  | Wrong.
Arguments Ret {A} a w.
Arguments Raise {A} e w.
Arguments Wrong {A}.

Definition M (A : Type) : Type := world -> outcome A.

Definition ret {A} (a : A) : M A := fun w => Ret a w.

Definition bind {A B} (m : M A) (k : A -> M B) : M B :=
  fun w =>
    match m w with
    | Ret a w' => k a w'
    | Raise e w' => Raise e w'
    | Wrong => Wrong
    end.

Definition raise {A} (e : exn) : M A := fun w => Raise e w.

Declare Scope py_scope.
Delimit Scope py_scope with py.
Notation "'let!' x ':=' c 'in' k" := (bind c (fun x => k))
  (at level 10, x name, c at level 100, k at level 200, only parsing) : py_scope.
Notation "c ;;; k" := (bind c (fun _ => k))
  (at level 100, k at level 200, right associativity, only parsing) : py_scope.
Local Open Scope py_scope.

(** *** Primitive operations of the object model *)

(** [object.__new__(c)]: a new instance with an empty [__dict__]. *)
Definition alloc (c : class) : M pyval :=
  fun w =>
    Ret (VRef (length (heap w)))
        {| heap := heap w ++ [Instance c []];
           Singleton_instance := Singleton_instance w;
           stdout := stdout w |}.

(** [v.name] for an instance attribute. *)
Definition getattr (v : pyval) (name : string) : M pyval :=
  fun w =>
    match v with
    | VRef l =>
        match heap w !! l with
        | Some o =>
            match dict_get (dict o) name with
            | Some x => Ret x w
            | None => Raise (AttributeError name) w
            end
        | None => Wrong
        end
    | _ => Raise (AttributeError name) w
    end.

(** [v.name = x]. *)
Definition setattr (v : pyval) (name : string) (x : pyval) : M unit :=
  fun w =>
    match v with
    | VRef l =>
        match heap w !! l with
        | Some o =>
            Ret tt {| heap := <[l := Instance (cls o) (dict_set (dict o) name x)]> (heap w);
                      Singleton_instance := Singleton_instance w;
                      stdout := stdout w |}
        | None => Wrong
        end
    | _ => Raise (AttributeError name) w
    end.

Definition print (line : string) : M unit :=
  fun w =>
    Ret tt {| heap := heap w;
              Singleton_instance := Singleton_instance w;
              stdout := stdout w ++ [line] |}.

(** Truth value of [v] in [if not v]: the classes of the file define
    neither [__bool__] nor [__len__], so an instance is true. *)
Definition truthy (v : pyval) : bool :=
  match v with
  | VNone => false
  | VBool b => b
  | VInt z => negb (Z.eqb z 0)
  | VStr s => negb (String.eqb s "")
  | VList items => match items with [] => false | _ => true end
  | VRef _ => true
  end.

(** Looking up the method [name] on [self] and calling it: [table] gives
    the body that the class of [self] defines or inherits, if any.  A
    value that is not an instance of a class of this file has none of
    their methods. *)
Definition dispatch {A} (self : pyval) (name : string)
    (table : class -> option (M A)) : M A :=
  fun w =>
    match self with
    | VRef l =>
        match heap w !! l with
        | Some o =>
            match table (cls o) with
            | Some body => body w
            | None => Raise (AttributeError name) w
            end
        | None => Wrong
        end
    | _ => Raise (AttributeError name) w
    end.

(** A method defined in class [owner] and overridden nowhere. *)
Definition method {A} (self : pyval) (name : string) (owner : class)
    (body : M A) : M A :=
  dispatch self name (fun c => if issubclass c owner then Some body else None).

(** ** Singleton *)

(** Reading and writing the class attribute [cls._instance]. *)
Definition get_instance : M pyval :=
  fun w => Ret (Singleton_instance w) w.

Definition set_instance (v : pyval) : M unit :=
  fun w =>
    Ret tt {| heap := heap w; Singleton_instance := v; stdout := stdout w |}.

(** [Singleton.__new__], with [cls] the class [Singleton]; the call
    [Singleton()] is this function ([object.__init__] does nothing). *)
Definition Singleton_new : M pyval :=
  let! inst := get_instance in
  (if negb (truthy inst) then
     let! o := alloc Singleton in
     set_instance o ;;;
     let! i := get_instance in
     setattr i "_initialized" (VBool false)
   else ret tt) ;;;
  get_instance.

Definition initialize (self data : pyval) : M pyval :=
  method self "initialize" Singleton
    (let! i := getattr self "_initialized" in
     if negb (truthy i) then
       setattr self "data" data ;;;
       setattr self "_initialized" (VBool true) ;;;
       ret VNone
     else
       print "Singleton already initialized." ;;;
       ret VNone).

Definition get_data (self : pyval) : M pyval :=
  method self "get_data" Singleton (getattr self "data").

(** ** Strings of the host language *)

(** [str.lower], as it is on ASCII text: the letters [A]..[Z] go to
    [a]..[z] and every other byte of the string is kept. *)
Definition lower_ascii (a : ascii) : ascii :=
  let n := nat_of_ascii a in
  if Nat.leb 65 n && Nat.leb n 90 then ascii_of_nat (n + 32) else a.

Fixpoint lower (s : string) : string :=
  match s with
  | EmptyString => EmptyString
  | String a s' => String (lower_ascii a) (lower s')
  end.

Definition newline : string := String (ascii_of_nat 10) EmptyString.

(** Iterating over a value, as [list.extend] and [str.join] do: a list
    gives its items, a string its characters (one for each byte, which is
    Python's iteration on ASCII text); [None], a boolean, a number and an
    instance of a class of this file, none of which defines [__iter__] or
    [__getitem__], are not iterable. *)
Definition iterate (v : pyval) : M (list pyval) :=
  match v with
  | VList items => ret items
  | VStr s => ret (map (fun a => VStr (String a EmptyString)) (list_ascii_of_string s))
  | _ => raise (TypeError "object is not iterable")
  end.

(** [sep.join(items)]: every item has to be a string. *)
Fixpoint join_items (sep : string) (items : list pyval) : option string :=
  match items with
  | [] => Some ""
  | [VStr s] => Some s
  | VStr s :: rest =>
      match join_items sep rest with
      | Some r => Some (s +:+ sep +:+ r)
      | None => None
      end
  | _ => None
  end.

Definition str_join (sep : string) (v : pyval) : M string :=
  let! items := iterate v in
  match join_items sep items with
  | Some s => ret s
  | None => raise (TypeError "sequence item: expected str instance")
  end.

Section Formatting.

(** [repr] of a list and of an instance without [__str__]: the host
    language's, not defined by this file. *)
Variable repr : pyval -> string.

(** [str(v)], as an f-string field and [print] apply it, for [None], a
    boolean, an integer and a string.  A list and an instance are handed
    to [repr]; [Pizza.__str__] below is not called from here, and the
    properties that give a formatted text take the values of the first
    four kinds ([plain] below). *)
Definition py_str (v : pyval) : string :=
  match v with
  | VNone => "None"
  | VBool true => "True"
  | VBool false => "False"
  | VInt z => NilZero.string_of_int (Z.to_int z)
  | VStr s => s
  | VList _ | VRef _ => repr v
  end.

Definition print_value (v : pyval) : M unit := print (py_str v).

End Formatting.

(** ** Factory: shapes *)

Definition draw (self : pyval) : M pyval :=
  dispatch self "draw" (fun c =>
    match c with
    | Shape => Some (raise (NotImplementedError "Subclasses must implement the draw method"))
    | Circle => Some (ret (VStr "Drawing a circle"))
    | Square => Some (ret (VStr "Drawing a square"))
    | _ => None
    end).

(** [ShapeFactory.create_shape], a static method; [shape_type] is a [str]. *)
Definition create_shape (shape_type : string) : M pyval :=
  if String.eqb (lower shape_type) "circle" then alloc Circle
  else if String.eqb (lower shape_type) "square" then alloc Square
  else
    print ("Shape type '" +:+ shape_type +:+ "' not recognized.") ;;;
    ret VNone.

(** ** Abstract factory: GUI widgets *)

Definition create_button (self : pyval) : M pyval :=
  dispatch self "create_button" (fun c =>
    match c with
    | GUIFactory => Some (raise (NotImplementedError "Subclasses must implement create_button"))
    | WindowsGUIFactory => Some (alloc WindowsButton)
    | MacGUIFactory => Some (alloc MacButton)
    | _ => None
    end).

Definition create_textbox (self : pyval) : M pyval :=
  dispatch self "create_textbox" (fun c =>
    match c with
    | GUIFactory => Some (raise (NotImplementedError "Subclasses must implement create_textbox"))
    | WindowsGUIFactory => Some (alloc WindowsTextBox)
    | MacGUIFactory => Some (alloc MacTextBox)
    | _ => None
    end).

Definition render (self : pyval) : M pyval :=
  dispatch self "render" (fun c =>
    match c with
    | Button => Some (raise (NotImplementedError "Subclasses must implement render"))
    | WindowsButton => Some (ret (VStr "Rendering a Windows button"))
    | MacButton => Some (ret (VStr "Rendering a Mac button"))
    | _ => None
    end).

Definition display (self : pyval) : M pyval :=
  dispatch self "display" (fun c =>
    match c with
    | TextBox => Some (raise (NotImplementedError "Subclasses must implement display"))
    | WindowsTextBox => Some (ret (VStr "Displaying a Windows text box"))
    | MacTextBox => Some (ret (VStr "Displaying a Mac text box"))
    | _ => None
    end).

Definition create_ui (repr : pyval -> string) (factory : pyval) : M pyval :=
  let! button := create_button factory in
  let! textbox := create_textbox factory in
  let! r := render button in
  print_value repr r ;;;
  let! d := display textbox in
  print_value repr d ;;;
  ret VNone.

(** ** Builder: pizzas *)

Definition Pizza_init (self : pyval) : M unit :=
  setattr self "dough" VNone ;;;
  setattr self "sauce" VNone ;;;
  setattr self "cheese" (VList []) ;;;
  setattr self "toppings" (VList []).

(** The call [Pizza()]. *)
Definition new_Pizza : M pyval :=
  let! self := alloc Pizza in
  Pizza_init self ;;;
  ret self.

(** [Pizza.__str__] *)
Definition Pizza_str (repr : pyval -> string) (self : pyval) : M pyval :=
  let! dough := getattr self "dough" in
  let! sauce := getattr self "sauce" in
  let! cheese := getattr self "cheese" in
  let! cs := str_join ", " cheese in
  let! toppings := getattr self "toppings" in
  let! ts := str_join ", " toppings in
  ret (VStr ("Dough: " +:+ py_str repr dough +:+ newline +:+
             "Sauce: " +:+ py_str repr sauce +:+ newline +:+
             "Cheese: " +:+ cs +:+ newline +:+
             "Toppings: " +:+ ts)).

(** [obj.name.append(x)], on the list that the attribute holds. *)
Definition attr_append (obj : pyval) (name : string) (x : pyval) : M unit :=
  let! v := getattr obj name in
  match v with
  | VList items => setattr obj name (VList (items ++ [x]))
  | _ => raise (AttributeError "append")
  end.

(** [obj.name.extend(xs)], on the list that the attribute holds; a value
    that is not iterable is refused before anything is added. *)
Definition attr_extend (obj : pyval) (name : string) (xs : pyval) : M unit :=
  let! v := getattr obj name in
  match v with
  | VList items =>
      let! more := iterate xs in
      setattr obj name (VList (items ++ more))
  | _ => raise (AttributeError "extend")
  end.

Definition PizzaBuilder_init (self : pyval) : M unit :=
  let! p := new_Pizza in
  setattr self "pizza" p.

Definition add_dough (self dough : pyval) : M pyval :=
  method self "add_dough" PizzaBuilder
    (let! p := getattr self "pizza" in
     setattr p "dough" dough ;;;
     ret self).

Definition add_sauce (self sauce : pyval) : M pyval :=
  method self "add_sauce" PizzaBuilder
    (let! p := getattr self "pizza" in
     setattr p "sauce" sauce ;;;
     ret self).

Definition add_cheese (self cheese : pyval) : M pyval :=
  method self "add_cheese" PizzaBuilder
    (let! p := getattr self "pizza" in
     attr_append p "cheese" cheese ;;;
     ret self).

Definition add_topping (self topping : pyval) : M pyval :=
  method self "add_topping" PizzaBuilder
    (let! p := getattr self "pizza" in
     attr_append p "toppings" topping ;;;
     ret self).

Definition build (self : pyval) : M pyval :=
  method self "build" PizzaBuilder (getattr self "pizza").

Definition VeggiePizzaBuilder_init (self : pyval) : M unit :=
  PizzaBuilder_init self ;;;
  add_dough self (VStr "Thin crust") ;;;
  add_sauce self (VStr "Marinara") ;;;
  add_cheese self (VList [VStr "Mozzarella"]) ;;;
  ret tt.

Definition add_veggies (self veggies : pyval) : M pyval :=
  method self "add_veggies" VeggiePizzaBuilder
    (let! p := getattr self "pizza" in
     attr_extend p "toppings" veggies ;;;
     ret self).

Definition MeatLoversPizzaBuilder_init (self : pyval) : M unit :=
  PizzaBuilder_init self ;;;
  add_dough self (VStr "Thick crust") ;;;
  add_sauce self (VStr "Tomato") ;;;
  add_cheese self (VList [VStr "Mozzarella"; VStr "Cheddar"]) ;;;
  ret tt.

Definition add_meats (self meats : pyval) : M pyval :=
  method self "add_meats" MeatLoversPizzaBuilder
    (let! p := getattr self "pizza" in
     attr_extend p "toppings" meats ;;;
     ret self).

(** The calls [PizzaBuilder()], [VeggiePizzaBuilder()] and
    [MeatLoversPizzaBuilder()]. *)
Definition new_PizzaBuilder : M pyval :=
  let! self := alloc PizzaBuilder in
  PizzaBuilder_init self ;;;
  ret self.

Definition new_VeggiePizzaBuilder : M pyval :=
  let! self := alloc VeggiePizzaBuilder in
  VeggiePizzaBuilder_init self ;;;
  ret self.

Definition new_MeatLoversPizzaBuilder : M pyval :=
  let! self := alloc MeatLoversPizzaBuilder in
  MeatLoversPizzaBuilder_init self ;;;
  ret self.

(** ** Prototype *)

(** [copy.copy] : a new instance of the same class whose [__dict__] has
    the entries of the source's; a value that is not an instance is its
    own copy in this model. *)
Definition copy_copy (v : pyval) : M pyval :=
  fun w =>
    match v with
    | VRef l =>
        match heap w !! l with
        | Some o =>
            Ret (VRef (length (heap w)))
                {| heap := heap w ++ [Instance (cls o) (dict o)];
                   Singleton_instance := Singleton_instance w;
                   stdout := stdout w |}
        | None => Wrong
        end
    | _ => Ret v w
    end.

Definition clone (self : pyval) : M pyval :=
  method self "clone" Prototype (copy_copy self).

Definition ConcretePrototype1_init (self data : pyval) : M unit :=
  setattr self "data" data.

Definition new_ConcretePrototype1 (data : pyval) : M pyval :=
  let! self := alloc ConcretePrototype1 in
  ConcretePrototype1_init self data ;;;
  ret self.

Definition operation (repr : pyval -> string) (self : pyval) : M pyval :=
  method self "operation" ConcretePrototype1
    (let! data := getattr self "data" in
     ret (VStr ("ConcretePrototype1 with data: " +:+ py_str repr data))).

Definition ConcretePrototype2_init (self value : pyval) : M unit :=
  setattr self "value" value.

Definition new_ConcretePrototype2 (value : pyval) : M pyval :=
  let! self := alloc ConcretePrototype2 in
  ConcretePrototype2_init self value ;;;
  ret self.

Definition process (repr : pyval -> string) (self : pyval) : M pyval :=
  method self "process" ConcretePrototype2
    (let! value := getattr self "value" in
     ret (VStr ("ConcretePrototype2 processing value: " +:+ py_str repr value))).

(** ** Vocabulary of the properties *)

(** Reading an attribute without running code: [Some x] when [v] is an
    instance whose [__dict__] has [name]. *)
Definition attr (w : world) (v : pyval) (name : string) : option pyval :=
  match v with
  | VRef l =>
      match heap w !! l with
      | Some o => dict_get (dict o) name
      | None => None
      end
  | _ => None
  end.

(** The class of the instance [v] refers to. *)
Definition class_at (w : world) (v : pyval) : option class :=
  match v with
  | VRef l =>
      match heap w !! l with
      | Some o => Some (cls o)
      | None => None
      end
  | _ => None
  end.

(** The world with the instance at [l] replaced. *)
Definition store (w : world) (l : loc) (o : instance) : world :=
  {| heap := <[l := o]> (heap w);
     Singleton_instance := Singleton_instance w;
     stdout := stdout w |}.

(** The world with one more line on the standard output. *)
Definition printed (w : world) (line : string) : world :=
  {| heap := heap w;
     Singleton_instance := Singleton_instance w;
     stdout := stdout w ++ [line] |}.

(** The world with one more instance. *)
Definition extended (w : world) (o : instance) : world :=
  {| heap := heap w ++ [o];
     Singleton_instance := Singleton_instance w;
     stdout := stdout w |}.

(** How many instances of class [c] the heap holds. *)
Definition count_instances (c : class) (w : world) : nat :=
  length (List.filter (fun o => class_eqb (cls o) c) (heap w)).

(** *** Clients of the singleton *)

(** What a client of [Singleton] does: it calls the class, and it calls
    the two methods on whatever value it holds. *)
Inductive action : Type :=
  | Call_Singleton
  | Call_initialize (self data : pyval)
  | Call_get_data (self : pyval).

(** The world an execution leaves, whether it returned or raised. *)
Definition world_after {A} (o : outcome A) (w : world) : world :=
  match o with
  | Ret _ w' => w'
  | Raise _ w' => w'
  | Wrong => w
  end.

Definition perform (a : action) (w : world) : world :=
  match a with
  | Call_Singleton => world_after (Singleton_new w) w
  | Call_initialize self data => world_after (initialize self data w) w
  | Call_get_data self => world_after (get_data self w) w
  end.

Definition run (t : list action) (w : world) : world :=
  fold_left (fun w a => perform a w) t w.

Definition is_initialize (a : action) : bool :=
  match a with
  | Call_initialize _ _ => true
  | _ => false
  end.

Definition is_call_Singleton (a : action) : bool :=
  match a with
  | Call_Singleton => true
  | _ => false
  end.

(** The state of a process in which [Singleton] has not been called. *)
Definition process_start (w : world) : Prop :=
  Singleton_instance w = VNone ∧ count_instances Singleton w = 0.

(** The instance exists: [_instance] refers to it, and it is the only
    instance of the class. *)
Definition constructed (w : world) (l : loc) (d : list (string * pyval)) : Prop :=
  Singleton_instance w = VRef l ∧
  heap w !! l = Some (Instance Singleton d) ∧
  count_instances Singleton w = 1.

(** The [__dict__] that [__new__] leaves, and the one [initialize] leaves. *)
Definition fresh_dict (d : list (string * pyval)) : Prop :=
  dict_get d "_initialized" = Some (VBool false) ∧ dict_get d "data" = None.

Definition initialized_dict (d : list (string * pyval)) : Prop :=
  dict_get d "_initialized" = Some (VBool true) ∧ is_Some (dict_get d "data").

(** The instance is at [l], as [__new__] or as [initialize] left it. *)
Definition singleton_at (l : loc) (w : world) : Prop :=
  ∃ d, constructed w l d ∧ (fresh_dict d ∨ initialized_dict d).

(** The instance is at [l], and [initialize] has not touched it. *)
Definition fresh_at (l : loc) (w : world) : Prop :=
  ∃ d, constructed w l d ∧ fresh_dict d.

(** What holds of the state of a process at any time. *)
Definition singleton_inv (w : world) : Prop :=
  process_start w ∨ ∃ l, singleton_at l w.

(** What holds for as long as [initialize] has not been called. *)
Definition uninitialized_inv (w : world) : Prop :=
  process_start w ∨ ∃ l, fresh_at l w.

(** *** Matching a tag whatever the case *)

(** Two characters that are equal, or the same letter in two cases. *)
Definition same_letter (a b : ascii) : bool :=
  Ascii.eqb a b ||
  (let n := nat_of_ascii a in
   let m := nat_of_ascii b in
   (Nat.leb 65 n && Nat.leb n 90 && Nat.eqb m (n + 32)) ||
   (Nat.leb 65 m && Nat.leb m 90 && Nat.eqb n (m + 32))).

(** [s] is [tag] up to the case of its letters. *)
Fixpoint caseless_eqb (s tag : string) : bool :=
  match s, tag with
  | EmptyString, EmptyString => true
  | String a s', String b tag' => same_letter a b && caseless_eqb s' tag'
  | _, _ => false
  end.

(** [tag] is written in lower case. *)
Fixpoint is_lower (tag : string) : bool :=
  match tag with
  | EmptyString => true
  | String a tag' =>
      negb (Nat.leb 65 (nat_of_ascii a) && Nat.leb (nat_of_ascii a) 90)
      && is_lower tag'
  end.

(** *** Substrings *)

(** [sub in s] *)
Fixpoint contains (sub s : string) : bool :=
  String.prefix sub s ||
  match s with
  | EmptyString => false
  | String _ s' => contains sub s'
  end.

(** The platform a concrete factory is named after. *)
Definition platform (c : class) : option string :=
  match c with
  | WindowsGUIFactory => Some "Windows"
  | MacGUIFactory => Some "Mac"
  | _ => None
  end.

(** The platform a concrete widget class is named after. *)
Definition widget_platform (c : class) : option string :=
  match c with
  | WindowsButton | WindowsTextBox => Some "Windows"
  | MacButton | MacTextBox => Some "Mac"
  | _ => None
  end.

(** *** Steps of a builder *)

Inductive step : Type :=
  | Add_dough (dough : pyval)
  | Add_sauce (sauce : pyval)
  | Add_cheese (cheese : pyval)
  | Add_topping (topping : pyval)
  | Add_veggies (veggies : pyval)
  | Add_meats (meats : pyval).

Definition run_step (s : step) (self : pyval) : M pyval :=
  match s with
  | Add_dough x => add_dough self x
  | Add_sauce x => add_sauce self x
  | Add_cheese x => add_cheese self x
  | Add_topping x => add_topping self x
  | Add_veggies x => add_veggies self x
  | Add_meats x => add_meats self x
  end.

(** The attribute of the pizza that a step writes. *)
Definition written (s : step) : string :=
  match s with
  | Add_dough _ => "dough"
  | Add_sauce _ => "sauce"
  | Add_cheese _ => "cheese"
  | Add_topping _ | Add_veggies _ | Add_meats _ => "toppings"
  end.

(** What a step that returns leaves in the attribute it writes, [old]
    being what the attribute held. *)
Definition written_value (s : step) (old : option pyval) : option pyval :=
  match s with
  | Add_dough x | Add_sauce x => Some x
  | Add_cheese x | Add_topping x =>
      match old with
      | Some (VList items) => Some (VList (items ++ [x]))
      | _ => None
      end
  | Add_veggies xs | Add_meats xs =>
      match old, xs with
      | Some (VList items), VList more => Some (VList (items ++ more))
      | Some (VList items), VStr s =>
          Some (VList (items ++ map (fun a => VStr (String a EmptyString))
                                    (list_ascii_of_string s)))
      | _, _ => None
      end
  end.

(** The class whose body defines the method of a step. *)
Definition step_owner (s : step) : class :=
  match s with
  | Add_veggies _ => VeggiePizzaBuilder
  | Add_meats _ => MeatLoversPizzaBuilder
  | _ => PizzaBuilder
  end.

(** The instance that [Pizza()] creates. *)
Definition empty_pizza : instance :=
  Instance Pizza [("dough", VNone); ("sauce", VNone);
                  ("cheese", VList []); ("toppings", VList [])].

(** The instance that [VeggiePizzaBuilder()] leaves as its pizza. *)
Definition veggie_pizza : instance :=
  Instance Pizza [("dough", VStr "Thin crust"); ("sauce", VStr "Marinara");
                  ("cheese", VList [VList [VStr "Mozzarella"]]);
                  ("toppings", VList [])].

(** The four fields of a pizza record. *)
Definition pizza_fields (w : world) (p : pyval) : list (option pyval) :=
  [attr w p "dough"; attr w p "sauce"; attr w p "cheese"; attr w p "toppings"].

(** A value that is not a list. *)
Definition list_free (v : pyval) : bool :=
  match v with
  | VList _ => false
  | _ => true
  end.

(** The arguments with which a step brings no list of its caller into
    the pizza: a value that is not a list for the four steps that store
    their argument; for the two steps that take a collection, a list of
    items that are not lists, whose items [extend] copies, or [None], a
    boolean or a number, which [extend] refuses. *)
Definition unshared_arg (s : step) : bool :=
  match s with
  | Add_dough x | Add_sauce x | Add_cheese x | Add_topping x => list_free x
  | Add_veggies xs | Add_meats xs =>
      match xs with
      | VList items => forallb list_free items
      | VNone | VBool _ | VInt _ => true
      | VStr _ | VRef _ => false
      end
  end.

(** The number of digits up to which CPython converts an integer to a
    string (later versions raise [ValueError] beyond it). *)
Definition max_str_digits : Z := 4300.

(** The values whose [str] is fixed by the language and is what [py_str]
    gives: [None], a boolean, a string, and an integer of at most
    [max_str_digits] digits. *)
Definition plain (v : pyval) : bool :=
  match v with
  | VNone | VBool _ | VStr _ => true
  | VInt z => (Z.abs z <? 10 ^ max_str_digits)%Z
  | VList _ | VRef _ => false
  end.

(** ** Vocabulary of the further properties *)

(** The call [c()] of a class of the file with no argument. *)
Definition instantiate (c : class) : M pyval :=
  match c with
  | Singleton => Singleton_new
  | Pizza => new_Pizza
  | PizzaBuilder => new_PizzaBuilder
  | VeggiePizzaBuilder => new_VeggiePizzaBuilder
  | MeatLoversPizzaBuilder => new_MeatLoversPizzaBuilder
  | ConcretePrototype1 | ConcretePrototype2 =>
      raise (TypeError "__init__() missing 1 required positional argument")
  | _ => alloc c
  end.

(** A chain of steps, [b.s1(..).s2(..)...]: each step is called on what
    the step before it returned. *)
Fixpoint run_steps (ss : list step) (self : pyval) : M pyval :=
  match ss with
  | [] => ret self
  | s :: ss' =>
      let! b := run_step s self in
      run_steps ss' b
  end.

(** The name of the method of a step. *)
Definition step_name (s : step) : string :=
  match s with
  | Add_dough _ => "add_dough"
  | Add_sauce _ => "add_sauce"
  | Add_cheese _ => "add_cheese"
  | Add_topping _ => "add_topping"
  | Add_veggies _ => "add_veggies"
  | Add_meats _ => "add_meats"
  end.

(** The argument of a step that takes a collection. *)
Definition bulk_arg (s : step) : option pyval :=
  match s with
  | Add_veggies xs | Add_meats xs => Some xs
  | _ => None
  end.

(** A step that a builder of class [c] has, with a list where the step
    takes a collection. *)
Definition applicable (c : class) (s : step) : bool :=
  issubclass c (step_owner s) &&
  match bulk_arg s with
  | Some (VList _) | None => true
  | Some _ => false
  end.

(** What the steps of a chain pass for each field, in the order of the
    calls. *)
Definition dough_args (ss : list step) : list pyval :=
  flat_map (fun s => match s with Add_dough x => [x] | _ => [] end) ss.

Definition sauce_args (ss : list step) : list pyval :=
  flat_map (fun s => match s with Add_sauce x => [x] | _ => [] end) ss.

Definition cheese_args (ss : list step) : list pyval :=
  flat_map (fun s => match s with Add_cheese x => [x] | _ => [] end) ss.

Definition topping_items (ss : list step) : list pyval :=
  flat_map (fun s =>
              match s with
              | Add_topping x => [x]
              | Add_veggies (VList xs) | Add_meats (VList xs) => xs
              | _ => []
              end) ss.

(** The [__dict__] of a pizza with the given fields. *)
Definition pizza_dict (dough sauce : pyval) (cheese toppings : list pyval)
  : list (string * pyval) :=
  [("dough", dough); ("sauce", sauce);
   ("cheese", VList cheese); ("toppings", VList toppings)].

(** What the constructor of a builder class leaves in the fields. *)
Definition preset_dough (c : class) : pyval :=
  match c with
  | VeggiePizzaBuilder => VStr "Thin crust"
  | MeatLoversPizzaBuilder => VStr "Thick crust"
  | _ => VNone
  end.

Definition preset_sauce (c : class) : pyval :=
  match c with
  | VeggiePizzaBuilder => VStr "Marinara"
  | MeatLoversPizzaBuilder => VStr "Tomato"
  | _ => VNone
  end.

Definition preset_cheese (c : class) : list pyval :=
  match c with
  | VeggiePizzaBuilder => [VList [VStr "Mozzarella"]]
  | MeatLoversPizzaBuilder => [VList [VStr "Mozzarella"; VStr "Cheddar"]]
  | _ => []
  end.

(** A value that is a string, and its text. *)
Definition is_str (v : pyval) : bool :=
  match v with
  | VStr _ => true
  | _ => false
  end.

Definition str_text (v : pyval) : string :=
  match v with
  | VStr s => s
  | _ => ""
  end.

(** A value that [extend] refuses: [None], a boolean, a number, or an
    instance in the heap, which is an instance of one of the classes of
    [design_patterns/intro.py]; none of them defines [__iter__] or
    [__getitem__]. *)
Definition not_iterable (w : world) (v : pyval) : bool :=
  match v with
  | VNone | VBool _ | VInt _ => true
  | VRef l =>
      match heap w !! l with
      | Some _ => true
      | None => false
      end
  | VStr _ | VList _ => false
  end.

(** *** Everything a client can call *)

(** The calls that the classes of the file offer, with any arguments. *)
Inductive call : Type :=
  | Do_instantiate (c : class)
  | Do_ConcretePrototype1 (data : pyval)
  | Do_ConcretePrototype2 (value : pyval)
  | Do_initialize (self data : pyval)
  | Do_get_data (self : pyval)
  | Do_create_shape (shape_type : string)
  | Do_draw (self : pyval)
  | Do_create_button (self : pyval)
  | Do_create_textbox (self : pyval)
  | Do_render (self : pyval)
  | Do_display (self : pyval)
  | Do_create_ui (factory : pyval)
  | Do_Pizza_str (self : pyval)
  | Do_step (s : step) (self : pyval)
  | Do_build (self : pyval)
  | Do_clone (self : pyval)
  | Do_operation (self : pyval)
  | Do_process (self : pyval).

Definition do_call (repr : pyval -> string) (c : call) : M pyval :=
  match c with
  | Do_instantiate c => instantiate c
  | Do_ConcretePrototype1 data => new_ConcretePrototype1 data
  | Do_ConcretePrototype2 value => new_ConcretePrototype2 value
  | Do_initialize self data => initialize self data
  | Do_get_data self => get_data self
  | Do_create_shape shape_type => create_shape shape_type
  | Do_draw self => draw self
  | Do_create_button self => create_button self
  | Do_create_textbox self => create_textbox self
  | Do_render self => render self
  | Do_display self => display self
  | Do_create_ui factory => create_ui repr factory
  | Do_Pizza_str self => Pizza_str repr self
  | Do_step s self => run_step s self
  | Do_build self => build self
  | Do_clone self => clone self
  | Do_operation self => operation repr self
  | Do_process self => process repr self
  end.

(** The state after a sequence of calls, each returning or raising. *)
Definition run_calls (repr : pyval -> string) (cs : list call) (w : world) : world :=
  fold_left (fun w c => world_after (do_call repr c w) w) cs w.

Definition is_Do_initialize (c : call) : bool :=
  match c with
  | Do_initialize _ _ => true
  | _ => false
  end.

(** The three calls that are about the singleton. *)
Definition singleton_action (c : call) : option action :=
  match c with
  | Do_instantiate Singleton => Some Call_Singleton
  | Do_initialize self data => Some (Call_initialize self data)
  | Do_get_data self => Some (Call_get_data self)
  | _ => None
  end.

(** A change of state that leaves the singleton machinery alone: the
    class attribute, the number of instances of [Singleton], and, in every
    object that existed, the class and the two attributes that
    [initialize] writes. *)
Definition benign (w w' : world) : Prop :=
  Singleton_instance w' = Singleton_instance w ∧
  count_instances Singleton w' = count_instances Singleton w ∧
  ∀ l o, heap w !! l = Some o →
    ∃ o', heap w' !! l = Some o' ∧ cls o' = cls o ∧
          dict_get (dict o') "_initialized" = dict_get (dict o) "_initialized" ∧
          dict_get (dict o') "data" = dict_get (dict o) "data".

(** Code all of whose executions are benign. *)
Definition quiet {A} (m : M A) : Prop :=
  ∀ w, benign w (world_after (m w) w).

(** The instance is at [l] and holds the payload [d]. *)
Definition payload_at (l : loc) (d : pyval) (w : world) : Prop :=
  ∃ dd, constructed w l dd ∧
        dict_get dd "_initialized" = Some (VBool true) ∧
        dict_get dd "data" = Some d.

(** ** The iterator of [magic_methods/intro.py] *)

(** An instance of [Squares]: its two attributes, which are integers. *)
Record Squares : Type := {
  Squares_length : Z;
  Squares_current : Z
}.

(** [Squares.__init__] *)
Definition Squares_init (length : Z) : Squares :=
  {| Squares_length := length; Squares_current := 0 |}.

(** [Squares.__iter__] returns the object itself. *)
Definition Squares_iter (self : Squares) : Squares := self.

(** [Squares.__next__]: [None] stands for [StopIteration]; the second
    component is the object after the call. *)
Definition Squares_next (self : Squares) : option Z * Squares :=
  if Z.geb (Squares_current self) (Squares_length self) then (None, self)
  else
    (Some (Squares_current self ^ 2)%Z,
     {| Squares_length := Squares_length self;
        Squares_current := (Squares_current self + 1)%Z |}).

(** [for square in squares: ...]: [__iter__] once, then [__next__] until
    it raises [StopIteration]; the values the loop body sees and the
    object the loop leaves.  [None] when [fuel] calls were not enough. *)
Fixpoint Squares_drain (fuel : nat) (it : Squares) : option (list Z * Squares) :=
  match fuel with
  | O => None
  | S fuel' =>
      match Squares_next it with
      | (None, it') => Some ([], it')
      | (Some v, it') =>
          match Squares_drain fuel' it' with
          | Some (vs, it'') => Some (v :: vs, it'')
          | None => None
          end
      end
  end.

Definition Squares_for (fuel : nat) (squares : Squares) : option (list Z * Squares) :=
  Squares_drain fuel (Squares_iter squares).

(** * Properties *)

(** ** The object model *)

(** *** Dictionaries *)

Lemma dict_get_set_eq d k v : dict_get (dict_set d k v) k = Some v.
Proof.
  induction d as [|[k' v'] d IH]; simpl.
  - by rewrite String.eqb_refl.
  - destruct (String.eqb k' k) eqn:E; simpl; rewrite E; auto.
Qed.

Lemma dict_get_set_ne d k k' v :
  k ≠ k' → dict_get (dict_set d k v) k' = dict_get d k'.
Proof.
  intros Hne. induction d as [|[k0 v0] d IH]; simpl.
  - destruct (String.eqb k k') eqn:E; [|done].
    apply String.eqb_eq in E. contradiction.
  - destruct (String.eqb k0 k) eqn:E; simpl.
    + apply String.eqb_eq in E. subst k0.
      destruct (String.eqb k k') eqn:E'; [|done].
      apply String.eqb_eq in E'. contradiction.
    + destruct (String.eqb k0 k'); auto.
Qed.

(** *** The heap: replacing and adding an instance *)

Lemma world_eq w w' :
  heap w = heap w' → Singleton_instance w = Singleton_instance w' →
  stdout w = stdout w' → w = w'.
Proof. destruct w, w'; simpl; congruence. Qed.

Lemma heap_store_ne w l l' o :
  l ≠ l' → heap (store w l o) !! l' = heap w !! l'.
Proof. intros. unfold store; simpl. by rewrite list_lookup_insert_ne. Qed.

Lemma heap_store_eq w l o o0 :
  heap w !! l = Some o0 → heap (store w l o) !! l = Some o.
Proof.
  intros H. unfold store; simpl. apply list_lookup_insert_eq.
  by eapply lookup_lt_Some.
Qed.

Lemma attr_store_same w l o name :
  l < length (heap w) →
  attr (store w l o) (VRef l) name = dict_get (dict o) name.
Proof.
  intros Hl. unfold attr, store. simpl.
  by rewrite list_lookup_insert_eq.
Qed.

Lemma store_store w l o o' : store (store w l o) l o' = store w l o'.
Proof.
  apply world_eq; try done. unfold store; simpl. apply list_insert_insert_eq.
Qed.


Lemma heap_extended_last w o : heap (extended w o) !! length (heap w) = Some o.
Proof. unfold extended; simpl. by apply list_lookup_middle. Qed.

Lemma heap_extended_old w o l x :
  heap w !! l = Some x → heap (extended w o) !! l = Some x.
Proof. intros H. unfold extended; simpl. by apply lookup_app_l_Some. Qed.

Lemma length_heap_extended w o : length (heap (extended w o)) = S (length (heap w)).
Proof. unfold extended; simpl. rewrite length_app. simpl. lia. Qed.

Lemma store_extended_last w o o' :
  store (extended w o) (length (heap w)) o' = extended w o'.
Proof.
  apply world_eq; try done. unfold store, extended; simpl.
  rewrite insert_app_r_alt by lia. by rewrite Nat.sub_diag.
Qed.

Lemma store_extended_old w o l o' :
  l < length (heap w) →
  store (extended w o) l o' = extended (store w l o') o.
Proof.
  intros H. apply world_eq; try done. unfold store, extended; simpl.
  by rewrite insert_app_l.
Qed.

Lemma heap_extended2_first w ob op :
  heap (extended (extended w ob) op) !! length (heap w) = Some ob.
Proof. apply heap_extended_old, heap_extended_last. Qed.

Lemma heap_extended2_second w ob op :
  heap (extended (extended w ob) op) !! S (length (heap w)) = Some op.
Proof. rewrite <- (length_heap_extended w ob). apply heap_extended_last. Qed.

Lemma store_extended2_first w ob op o' :
  store (extended (extended w ob) op) (length (heap w)) o' =
  extended (extended w o') op.
Proof.
  rewrite store_extended_old by (rewrite length_heap_extended; lia).
  by rewrite store_extended_last.
Qed.

Lemma store_extended2_second w ob op o' :
  store (extended (extended w ob) op) (S (length (heap w))) o' =
  extended (extended w ob) o'.
Proof. rewrite <- (length_heap_extended w ob). apply store_extended_last. Qed.

Lemma attr_extended_last w o name :
  attr (extended w o) (VRef (length (heap w))) name = dict_get (dict o) name.
Proof. unfold attr. by rewrite heap_extended_last. Qed.

Lemma attr_extended_old w o l name :
  l < length (heap w) →
  attr (extended w o) (VRef l) name = attr w (VRef l) name.
Proof.
  intros H. unfold attr, extended; simpl. by rewrite lookup_app_l.
Qed.

Create HintDb heap.
#[local] Hint Resolve heap_extended_last heap_extended_old heap_extended2_first
  heap_extended2_second heap_store_eq : heap.

(** *** Classes of instances *)

Lemma class_eqb_eq c d : class_eqb c d = true ↔ c = d.
Proof. split; [by destruct c, d | intros ->; by destruct d]. Qed.

Lemma class_at_Some w v c :
  class_at w v = Some c → ∃ l o, v = VRef l ∧ heap w !! l = Some o ∧ cls o = c.
Proof.
  unfold class_at. destruct v; try discriminate.
  destruct (heap w !! l) as [o|] eqn:H; [|discriminate].
  intros [= <-]. by exists l, o.
Qed.

Lemma class_at_cases w v c :
  class_at w v = Some c ∨ class_at w v ≠ Some c.
Proof.
  destruct (class_at w v) as [c'|]; [|by right].
  destruct (class_eqb c' c) eqn:E.
  - left. by apply class_eqb_eq in E as ->.
  - right. intros [= ->]. by destruct c.
Qed.

Lemma class_at_extended_last w o :
  class_at (extended w o) (VRef (length (heap w))) = Some (cls o).
Proof. unfold class_at. by rewrite heap_extended_last. Qed.

Lemma class_at_extended_old w o v c :
  class_at w v = Some c → class_at (extended w o) v = Some c.
Proof.
  intros (l & o' & -> & Ho & <-)%class_at_Some. unfold class_at.
  by erewrite heap_extended_old.
Qed.

(** *** What the primitive operations compute *)

Lemma alloc_spec c w :
  alloc c w = Ret (VRef (length (heap w))) (extended w (Instance c [])).
Proof. done. Qed.

Lemma attr_at w (l : loc) o name :
  heap w !! l = Some o → attr w (VRef l) name = dict_get (dict o) name.
Proof. intros H. unfold attr. by rewrite H. Qed.

Lemma getattr_at l o name x w :
  heap w !! l = Some o → dict_get (dict o) name = Some x →
  getattr (VRef l) name w = Ret x w.
Proof. intros H D. unfold getattr. by rewrite H, D. Qed.

Lemma attr_getattr v name w x :
  attr w v name = Some x → getattr v name w = Ret x w.
Proof.
  unfold getattr, attr. destruct v; try discriminate.
  destruct (heap w !! l) as [o|]; [|discriminate].
  by intros ->.
Qed.

Lemma setattr_at l o name x w :
  heap w !! l = Some o →
  setattr (VRef l) name x w =
    Ret tt (store w l (Instance (cls o) (dict_set (dict o) name x))).
Proof. intros H. unfold setattr. by rewrite H. Qed.

Lemma setattr_fresh c d name x w :
  setattr (VRef (length (heap w))) name x (extended w (Instance c d)) =
    Ret tt (extended w (Instance c (dict_set d name x))).
Proof.
  erewrite setattr_at by apply heap_extended_last.
  by rewrite store_extended_last.
Qed.

Lemma dispatch_at {A} l o name (table : class → option (M A)) w :
  heap w !! l = Some o →
  dispatch (VRef l) name table w =
    match table (cls o) with
    | Some body => body w
    | None => Raise (AttributeError name) w
    end.
Proof. intros H. unfold dispatch. by rewrite H. Qed.

Lemma dispatch_class_at {A} w v c name (table : class → option (M A)) :
  class_at w v = Some c →
  dispatch v name table w =
    match table c with
    | Some body => body w
    | None => Raise (AttributeError name) w
    end.
Proof. intros (l & o & -> & Ho & <-)%class_at_Some. by apply dispatch_at. Qed.

Lemma method_ref {A} l o name owner (body : M A) w :
  heap w !! l = Some o →
  method (VRef l) name owner body w =
    if issubclass (cls o) owner then body w else Raise (AttributeError name) w.
Proof.
  intros H. unfold method. erewrite dispatch_at by done.
  by destruct (issubclass (cls o) owner).
Qed.

(** *** What a result of a primitive operation tells *)

Lemma method_Ret {A} self name owner (body : M A) w a w' :
  method self name owner body w = Ret a w' →
  ∃ l o, self = VRef l ∧ heap w !! l = Some o ∧
         issubclass (cls o) owner = true ∧ body w = Ret a w'.
Proof.
  unfold method, dispatch. destruct self; try discriminate.
  destruct (heap w !! l) as [o|] eqn:H; [|discriminate].
  destruct (issubclass (cls o) owner) eqn:E; [|discriminate].
  intros Hb. by exists l, o.
Qed.

Lemma method_Raise {A} self name owner (body : M A) w e w' :
  method self name owner body w = Raise e w' →
  w' = w ∨ body w = Raise e w'.
Proof.
  unfold method, dispatch. destruct self; try (intros [= _ <-]; by left).
  destruct (heap w !! l) as [o|] eqn:H; [|discriminate].
  destruct (issubclass (cls o) owner) eqn:E.
  - by right.
  - intros [= _ <-]. by left.
Qed.

Lemma getattr_Ret v name w x w' :
  getattr v name w = Ret x w' → w' = w ∧ attr w v name = Some x.
Proof.
  unfold getattr, attr. destruct v; try discriminate.
  destruct (heap w !! l) as [o|]; [|discriminate].
  destruct (dict_get (dict o) name); [|discriminate].
  by intros [= -> ->].
Qed.

Lemma getattr_Raise v name w e w' :
  getattr v name w = Raise e w' → w' = w.
Proof.
  unfold getattr. destruct v; try (by intros [= _ <-]).
  destruct (heap w !! l) as [o|]; [|discriminate].
  destruct (dict_get (dict o) name); [discriminate|].
  by intros [= _ <-].
Qed.

Lemma setattr_Ret v name x w u w' :
  setattr v name x w = Ret u w' →
  ∃ l o, v = VRef l ∧ heap w !! l = Some o ∧
         w' = store w l (Instance (cls o) (dict_set (dict o) name x)).
Proof.
  unfold setattr. destruct v; try discriminate.
  destruct (heap w !! l) as [o|] eqn:H; [|discriminate].
  intros [= _ <-]. by exists l, o.
Qed.

Lemma setattr_Raise v name x w e w' :
  setattr v name x w = Raise e w' → w' = w.
Proof.
  unfold setattr. destruct v; try (by intros [= _ <-]).
  destruct (heap w !! l); discriminate.
Qed.

Lemma attr_append_Ret v name x w u w' :
  attr_append v name x w = Ret u w' →
  ∃ l o items, v = VRef l ∧ heap w !! l = Some o ∧
         dict_get (dict o) name = Some (VList items) ∧
         w' = store w l (Instance (cls o) (dict_set (dict o) name (VList (items ++ [x])))).
Proof.
  unfold attr_append, bind. destruct (getattr v name w) as [y w0| |] eqn:G; try discriminate.
  apply getattr_Ret in G as [-> G].
  destruct y; try discriminate.
  intros (l & o & -> & Ho & ->)%setattr_Ret.
  exists l, o, items. unfold attr in G. rewrite Ho in G. done.
Qed.

Lemma attr_append_Raise v name x w e w' :
  attr_append v name x w = Raise e w' → w' = w.
Proof.
  unfold attr_append, bind. destruct (getattr v name w) as [y w0| |] eqn:G; try discriminate.
  - apply getattr_Ret in G as [-> G].
    destruct y; try (by intros [= _ <-]). apply setattr_Raise.
  - apply getattr_Raise in G as ->. by intros [= _ <-].
Qed.

Lemma iterate_Ret xs w more w' :
  iterate xs w = Ret more w' →
  w' = w ∧
  match xs with
  | VList items => more = items
  | VStr s => more = map (fun a => VStr (String a EmptyString)) (list_ascii_of_string s)
  | _ => False
  end.
Proof. destruct xs; simpl; try discriminate; by intros [= <- <-]. Qed.

Lemma iterate_Raise xs w e w' : iterate xs w = Raise e w' → w' = w.
Proof. destruct xs; simpl; try discriminate; by intros [= _ <-]. Qed.

Lemma attr_extend_Ret v name xs w u w' :
  attr_extend v name xs w = Ret u w' →
  ∃ l o items more, v = VRef l ∧ heap w !! l = Some o ∧
         dict_get (dict o) name = Some (VList items) ∧
         iterate xs w = Ret more w ∧
         w' = store w l (Instance (cls o) (dict_set (dict o) name (VList (items ++ more)))).
Proof.
  unfold attr_extend, bind. destruct (getattr v name w) as [y w0| |] eqn:G; try discriminate.
  apply getattr_Ret in G as [-> G].
  destruct y; try discriminate.
  destruct (iterate xs w) as [more w0| |] eqn:I; try discriminate.
  pose proof (iterate_Ret _ _ _ _ I) as [-> _].
  intros (l & o & -> & Ho & ->)%setattr_Ret.
  exists l, o, items, more. unfold attr in G. rewrite Ho in G. done.
Qed.

Lemma attr_extend_Raise v name xs w e w' :
  attr_extend v name xs w = Raise e w' → w' = w.
Proof.
  unfold attr_extend, bind. destruct (getattr v name w) as [y w0| |] eqn:G; try discriminate.
  - apply getattr_Ret in G as [-> G].
    destruct y; try (by intros [= _ <-]).
    destruct (iterate xs w) as [more w0| |] eqn:I; try discriminate.
    + apply iterate_Ret in I as [-> _]. apply setattr_Raise.
    + apply iterate_Raise in I as ->. by intros [= _ <-].
  - apply getattr_Raise in G as ->. by intros [= _ <-].
Qed.

(** *** Counting the instances of a class *)

Lemma count_insert c (h : list instance) l o o' :
  h !! l = Some o → cls o' = cls o →
  length (List.filter (λ x, class_eqb (cls x) c) (<[l := o']> h)) =
  length (List.filter (λ x, class_eqb (cls x) c) h).
Proof.
  revert l. induction h as [|x h IH]; intros [|l] H Hc; simpl in *; try done.
  - injection H as ->. rewrite Hc. by destruct (class_eqb (cls o) c).
  - destruct (class_eqb (cls x) c); simpl; by rewrite (IH l H Hc).
Qed.

Lemma count_store c w l o o' :
  heap w !! l = Some o → cls o' = cls o →
  count_instances c (store w l o') = count_instances c w.
Proof. intros. unfold count_instances, store; simpl. by eapply count_insert. Qed.

Lemma count_zero_none c (h : list instance) l o :
  length (List.filter (λ x, class_eqb (cls x) c) h) = 0 →
  h !! l = Some o → cls o ≠ c.
Proof.
  revert l. induction h as [|x h IH]; intros [|l] H Hl; simpl in *; try done.
  - injection Hl as ->. destruct (class_eqb (cls o) c) eqn:E; [done|].
    intros ?%class_eqb_eq. congruence.
  - destruct (class_eqb (cls x) c); [done|]. eauto.
Qed.

Lemma count_one_unique c (h : list instance) l l' o o' :
  length (List.filter (λ x, class_eqb (cls x) c) h) = 1 →
  h !! l = Some o → cls o = c →
  h !! l' = Some o' → cls o' = c →
  l' = l.
Proof.
  revert l l'. induction h as [|x h IH]; intros l l' H Hl Hc Hl' Hc'; [done|].
  simpl in H. destruct l as [|l], l' as [|l']; simpl in *.
  - done.
  - injection Hl as ->. rewrite (proj2 (class_eqb_eq _ _) Hc) in H.
    simpl in H. injection H as H.
    by destruct (count_zero_none c h l' o' H Hl').
  - injection Hl' as ->. rewrite (proj2 (class_eqb_eq _ _) Hc') in H.
    simpl in H. injection H as H.
    by destruct (count_zero_none c h l o H Hl).
  - f_equal. destruct (class_eqb (cls x) c); simpl in H.
    + injection H as H. by destruct (count_zero_none c h l o H Hl).
    + eauto.
Qed.

(** ** Singleton *)

(** *** The three operations *)

(** The first call of [Singleton()] constructs the instance. *)
Lemma Singleton_new_first w :
  Singleton_instance w = VNone →
  Singleton_new w =
    Ret (VRef (length (heap w)))
        {| heap := heap w ++ [Instance Singleton [("_initialized", VBool false)]];
           Singleton_instance := VRef (length (heap w));
           stdout := stdout w |}.
Proof.
  intros H. unfold Singleton_new, bind, get_instance. rewrite H. simpl.
  rewrite list_lookup_middle by done. simpl.
  rewrite insert_app_r_alt by lia. by rewrite Nat.sub_diag.
Qed.

(** Every later call returns it. *)
Lemma Singleton_new_again w l :
  Singleton_instance w = VRef l → Singleton_new w = Ret (VRef l) w.
Proof.
  intros H. unfold Singleton_new, bind, get_instance. rewrite H. simpl. by rewrite H.
Qed.

Lemma Singleton_new_constructed w :
  process_start w →
  ∃ w', Singleton_new w = Ret (VRef (length (heap w))) w' ∧
        constructed w' (length (heap w)) [("_initialized", VBool false)].
Proof.
  intros [Hi Hc]. eexists. split; [by apply Singleton_new_first|].
  split_and!; simpl; try done.
  - by apply list_lookup_middle.
  - unfold count_instances in *. simpl. rewrite List.filter_app, length_app, Hc. done.
Qed.

(** A method of [Singleton] called on anything else leaves the state alone. *)
Lemma method_elsewhere {A} self name (body : M A) w :
  class_at w self ≠ Some Singleton →
  world_after (method self name Singleton body w) w = w.
Proof.
  intros H. unfold method, dispatch, class_at in *.
  destruct self; try done.
  destruct (heap w !! l) as [o|]; [|done].
  destruct (cls o); try done.
Qed.

(** The two branches of [initialize]. *)
Lemma initialize_fresh w l o i data :
  heap w !! l = Some o → cls o = Singleton →
  dict_get (dict o) "_initialized" = Some i → truthy i = false →
  initialize (VRef l) data w =
    Ret VNone (store w l (Instance Singleton
                 (dict_set (dict_set (dict o) "data" data) "_initialized" (VBool true)))).
Proof.
  intros Ho Hc Hi Ht. unfold initialize. erewrite method_ref by done.
  rewrite Hc. cbn [issubclass class_eqb orb]. unfold bind.
  erewrite getattr_at by done. rewrite Ht. cbn [negb].
  erewrite setattr_at by done.
  erewrite setattr_at by (eapply heap_store_eq; eauto).
  cbn [cls dict]. rewrite Hc. by rewrite store_store.
Qed.

Lemma initialize_initialized w l o i data :
  heap w !! l = Some o → cls o = Singleton →
  dict_get (dict o) "_initialized" = Some i → truthy i = true →
  initialize (VRef l) data w = Ret VNone (printed w "Singleton already initialized.").
Proof.
  intros Ho Hc Hi Ht. unfold initialize. erewrite method_ref by done.
  rewrite Hc. cbn [issubclass class_eqb orb]. unfold bind.
  erewrite getattr_at by done. by rewrite Ht.
Qed.

(** Whenever [initialize] returns, it leaves the instance initialized. *)
Lemma initialize_marks_initialized self data w0 r w :
  initialize self data w0 = Ret r w →
  class_at w self = Some Singleton ∧
  ∃ i, attr w self "_initialized" = Some i ∧ truthy i = true.
Proof.
  unfold initialize. intros (l & o & -> & Ho & Hc & Hb)%method_Ret.
  assert (cls o = Singleton) as Hcls by (by destruct (cls o)).
  unfold bind in Hb.
  destruct (getattr (VRef l) "_initialized" w0) as [i w'| |] eqn:G; try done.
  apply getattr_Ret in G as [-> G].
  destruct (truthy i) eqn:Ht; cbn [negb] in Hb.
  - injection Hb as _ <-. split.
    + unfold class_at, printed; simpl. by rewrite Ho, Hcls.
    + by exists i.
  - erewrite setattr_at in Hb by done.
    erewrite setattr_at in Hb by (eapply heap_store_eq; eauto).
    injection Hb as _ <-. rewrite store_store. split.
    + unfold class_at. erewrite heap_store_eq by done. by rewrite Hcls.
    + exists (VBool true). split; [|done].
      rewrite attr_store_same by (by eapply lookup_lt_Some). apply dict_get_set_eq.
Qed.

(** So a call of [initialize] after one that returned only prints. *)
Lemma second_initialize_only_prints self d0 d w0 r w :
  initialize self d0 w0 = Ret r w →
  initialize self d w = Ret VNone (printed w "Singleton already initialized.").
Proof.
  intros (Hc & i & Hi & Ht)%initialize_marks_initialized.
  apply class_at_Some in Hc as (l & o & -> & Ho & Hc).
  unfold attr in Hi. rewrite Ho in Hi. by eapply initialize_initialized.
Qed.

(** [get_data] writes nothing. *)
Lemma get_data_world self w : world_after (get_data self w) w = w.
Proof.
  unfold get_data, method, dispatch. destruct self; try done.
  destruct (heap w !! l) as [o|]; [|done].
  destruct (issubclass (cls o) Singleton); [|done].
  unfold getattr. destruct (heap w !! l) as [o'|]; [|done].
  by destruct (dict_get (dict o') "data").
Qed.

Lemma get_data_at w l o :
  heap w !! l = Some o → cls o = Singleton →
  get_data (VRef l) w =
    match dict_get (dict o) "data" with
    | Some x => Ret x w
    | None => Raise (AttributeError "data") w
    end.
Proof.
  intros Ho Hc. unfold get_data. erewrite method_ref by done. rewrite Hc.
  cbn [issubclass class_eqb orb]. unfold getattr. by rewrite Ho.
Qed.

(** *** The invariant of the class *)

(** Once the instance exists, it is the only value of its class. *)
Lemma constructed_unique w l d v :
  constructed w l d → class_at w v = Some Singleton → v = VRef l.
Proof.
  intros (_ & Hl & Hc) (l' & o' & -> & Hl' & Hc')%class_at_Some.
  f_equal. eapply (count_one_unique Singleton (heap w) l l'); eauto.
Qed.

Lemma process_start_no_instance w v :
  process_start w → class_at w v ≠ Some Singleton.
Proof.
  intros [_ Hc] (l' & o' & -> & Hl' & Hc')%class_at_Some.
  by eapply (count_zero_none Singleton (heap w)).
Qed.

Lemma constructed_store w l d d' :
  constructed w l d → constructed (store w l (Instance Singleton d')) l d'.
Proof.
  intros (Hi & Hl & Hc). split_and!.
  - done.
  - by eapply heap_store_eq.
  - by erewrite count_store.
Qed.

Lemma initialized_after d data :
  initialized_dict (dict_set (dict_set d "data" data) "_initialized" (VBool true)).
Proof.
  split.
  - apply dict_get_set_eq.
  - rewrite dict_get_set_ne by done. rewrite dict_get_set_eq. by eexists.
Qed.

(** The effect of [initialize] on the instance. *)
Lemma initialize_at w l d data :
  constructed w l d →
  (fresh_dict d →
     initialize (VRef l) data w =
       Ret VNone (store w l (Instance Singleton
                    (dict_set (dict_set d "data" data) "_initialized" (VBool true))))) ∧
  (initialized_dict d →
     initialize (VRef l) data w = Ret VNone (printed w "Singleton already initialized.")).
Proof.
  intros (Hi & Hl & Hc). split.
  - intros [Hf _].
    exact (initialize_fresh w l (Instance Singleton d) (VBool false) data
             Hl eq_refl Hf eq_refl).
  - intros [Hf _].
    exact (initialize_initialized w l (Instance Singleton d) (VBool true) data
             Hl eq_refl Hf eq_refl).
Qed.

(** Every action of a client keeps the instance where it is. *)
Lemma perform_singleton_at a l w :
  singleton_at l w → singleton_at l (perform a w).
Proof.
  intros (d & Hcon & Hd). destruct a as [|self data|self]; simpl.
  - pose proof Hcon as (Hi & _). rewrite (Singleton_new_again w l Hi). simpl.
    by exists d.
  - destruct (class_at_cases w self Singleton) as [Hs|Hs].
    + rewrite (constructed_unique w l d self Hcon Hs).
      destruct (initialize_at w l d data Hcon) as [Hfresh Hinit].
      destruct Hd as [Hd|Hd].
      * rewrite (Hfresh Hd). simpl. eexists. split.
        -- by eapply constructed_store.
        -- right. apply initialized_after.
      * rewrite (Hinit Hd). simpl. exists d. split; [done|by right].
    + unfold initialize. rewrite method_elsewhere by done. by exists d.
  - rewrite get_data_world. by exists d.
Qed.

Lemma perform_singleton_inv a w : singleton_inv w → singleton_inv (perform a w).
Proof.
  intros [Hs|[l Hl]].
  - destruct a as [|self data|self]; simpl.
    + destruct (Singleton_new_constructed w Hs) as (w' & -> & Hc). simpl.
      right. eexists _, _. split; [exact Hc|]. by left.
    + unfold initialize. rewrite method_elsewhere by (by apply process_start_no_instance).
      by left.
    + rewrite get_data_world. by left.
  - right. exists l. by apply perform_singleton_at.
Qed.

Lemma perform_fresh_at a l w :
  is_initialize a = false → fresh_at l w → fresh_at l (perform a w).
Proof.
  intros Ha (d & Hcon & Hd). destruct a as [|self data|self]; simpl; try done.
  - pose proof Hcon as (Hi & _). rewrite (Singleton_new_again w l Hi). simpl.
    by exists d.
  - rewrite get_data_world. by exists d.
Qed.

Lemma perform_uninitialized_inv a w :
  is_initialize a = false → uninitialized_inv w → uninitialized_inv (perform a w).
Proof.
  intros Ha [Hs|[l Hl]].
  - destruct a as [|self data|self]; simpl; try done.
    + destruct (Singleton_new_constructed w Hs) as (w' & -> & Hc). simpl.
      right. eexists _, _. split; [exact Hc|]. done.
    + rewrite get_data_world. by left.
  - right. exists l. by apply perform_fresh_at.
Qed.

Lemma perform_process_start a w :
  is_call_Singleton a = false → process_start w → perform a w = w.
Proof.
  intros Ha Hs. destruct a as [|self data|self]; simpl; try done.
  - unfold initialize. by rewrite method_elsewhere by (by apply process_start_no_instance).
  - apply get_data_world.
Qed.

Lemma run_singleton_at t l w : singleton_at l w → singleton_at l (run t w).
Proof.
  revert w. induction t as [|a t IH]; intros w H; simpl; [done|].
  apply IH. by apply perform_singleton_at.
Qed.

Lemma run_singleton_inv t w : singleton_inv w → singleton_inv (run t w).
Proof.
  revert w. induction t as [|a t IH]; intros w H; simpl; [done|].
  apply IH. by apply perform_singleton_inv.
Qed.

Lemma run_uninitialized_inv t w :
  forallb (λ a, negb (is_initialize a)) t = true →
  uninitialized_inv w → uninitialized_inv (run t w).
Proof.
  revert w. induction t as [|a t IH]; intros w Ht H; simpl in *; [done|].
  apply andb_prop in Ht as [Ha Ht]. apply IH; [done|].
  apply perform_uninitialized_inv; [|done]. by destruct (is_initialize a).
Qed.

Lemma run_process_start t w :
  forallb (λ a, negb (is_call_Singleton a)) t = true →
  process_start w → run t w = w.
Proof.
  revert w. induction t as [|a t IH]; intros w Ht H; simpl in *; [done|].
  apply andb_prop in Ht as [Ha Ht].
  rewrite perform_process_start; [by apply IH| |done]. by destruct (is_call_Singleton a).
Qed.

Lemma Singleton_new_singleton_inv w :
  singleton_inv w → ∃ l w1, Singleton_new w = Ret (VRef l) w1 ∧ singleton_at l w1.
Proof.
  intros [Hs|[l Hl]].
  - destruct (Singleton_new_constructed w Hs) as (w1 & E & Hc).
    eexists _, w1. split; [exact E|]. eexists. split; [exact Hc|]. by left.
  - exists l, w. split; [|done]. destruct Hl as (d & (Hi & _) & _).
    by apply Singleton_new_again.
Qed.

Lemma Singleton_new_uninitialized_inv w :
  uninitialized_inv w → ∃ l w1, Singleton_new w = Ret (VRef l) w1 ∧ fresh_at l w1.
Proof.
  intros [Hs|[l Hl]].
  - destruct (Singleton_new_constructed w Hs) as (w1 & E & Hc).
    eexists _, w1. split; [exact E|]. eexists. split; [exact Hc|]. done.
  - exists l, w. split; [|done]. destruct Hl as (d & (Hi & _) & _).
    by apply Singleton_new_again.
Qed.

Lemma initialize_then_get_data w l data :
  singleton_at l w →
  ∃ w2 payload,
    initialize (VRef l) data w = Ret VNone w2 ∧
    get_data (VRef l) w2 = Ret payload w2 ∧
    (fresh_at l w → payload = data).
Proof.
  intros (d & Hcon & Hd).
  destruct (initialize_at w l d data Hcon) as [Hfresh Hinit].
  pose proof Hcon as (Hi & Hl & Hc).
  destruct Hd as [Hd|Hd].
  - eexists _, data. split; [exact (Hfresh Hd)|]. split; [|done].
    erewrite get_data_at; [|by eapply heap_store_eq|done]. cbn [dict].
    rewrite dict_get_set_ne by discriminate. by rewrite dict_get_set_eq.
  - destruct Hd as [Hflag [payload Hp]].
    eexists _, payload. split; [exact (Hinit (conj Hflag (ex_intro _ payload Hp)))|].
    split.
    + erewrite get_data_at; [|exact Hl|done]. cbn [dict]. by rewrite Hp.
    + intros (d' & (_ & Hl' & _) & [Hflag' _]).
      rewrite Hl in Hl'. injection Hl' as <-. congruence.
Qed.

(** *** One instance, one initialization *)

(** C4.  From a state in which [Singleton] has not been called, and
    whatever a client then does with the class and its two methods: the
    heap never holds more than one instance of [Singleton]; a call of
    [Singleton()] that no other call of it precedes finds no instance and
    constructs one; and two calls of [Singleton()], anything done before
    and between them, return the same reference, to an instance of
    [Singleton]. *)
Theorem singleton_instance_is_unique (w0 : world) :
  process_start w0 →
  (∀ t, (count_instances Singleton (run t w0) ≤ 1)%nat) ∧
  (∀ t, forallb (λ a, negb (is_call_Singleton a)) t = true →
     count_instances Singleton (run t w0) = 0 ∧
     ∃ w1, Singleton_new (run t w0) = Ret (VRef (length (heap (run t w0)))) w1 ∧
           heap w1 = heap (run t w0) ++ [Instance Singleton [("_initialized", VBool false)]] ∧
           count_instances Singleton w1 = 1) ∧
  (∀ t1 t2, ∃ l w1 w2,
     Singleton_new (run t1 w0) = Ret (VRef l) w1 ∧
     Singleton_new (run t2 w1) = Ret (VRef l) w2 ∧
     class_at w2 (VRef l) = Some Singleton).
Proof.
  intros Hs. split_and!.
  - intros t. destruct (run_singleton_inv t w0 (or_introl Hs)) as [[_ ->]|(l & d & (_ & _ & ->) & _)]; lia.
  - intros t Ht. rewrite (run_process_start t w0 Ht Hs). split; [apply Hs|].
    destruct (Singleton_new_constructed w0 Hs) as (w1 & E & Hc).
    exists w1. split; [exact E|]. split; [|apply Hc].
    rewrite (Singleton_new_first w0 (proj1 Hs)) in E. by injection E as <-.
  - intros t1 t2.
    destruct (Singleton_new_singleton_inv _ (run_singleton_inv t1 w0 (or_introl Hs)))
      as (l & w1 & E1 & H1).
    pose proof (run_singleton_at t2 l w1 H1) as (d & (Hi & Hl & Hc) & _).
    exists l, w1, (run t2 w1). split; [exact E1|]. split.
    + by apply Singleton_new_again.
    + unfold class_at. by rewrite Hl.
Qed.

Lemma singleton_instance_is_unique_witness :
  process_start initial_world ∧
  (count_instances Singleton
     (run [Call_Singleton; Call_initialize (VRef 0) (VInt 1); Call_Singleton]
          initial_world) ≤ 1)%nat ∧
  (∃ w1, Singleton_new (run [Call_get_data VNone] initial_world) = Ret (VRef 0) w1 ∧
         count_instances Singleton w1 = 1) ∧
  (∃ l w1 w2,
     Singleton_new (run [] initial_world) = Ret (VRef l) w1 ∧
     Singleton_new (run [Call_initialize (VRef 0) (VInt 1)] w1) = Ret (VRef l) w2 ∧
     class_at w2 (VRef l) = Some Singleton).
Proof.
  assert (H : process_start initial_world) by (split; reflexivity).
  split; [exact H|].
  destruct (singleton_instance_is_unique initial_world H) as (Hmost & Hfirst & Hsame).
  split; [apply Hmost|]. split.
  - destruct (Hfirst [Call_get_data VNone] eq_refl) as (_ & w1 & E & _ & Hc).
    exists w1. split; [exact E | exact Hc].
  - apply Hsame.
Defined.

(** C3.  From a state in which [Singleton] has not been called: as long
    as no client has called [initialize], [get_data()] on the instance
    raises, the payload attribute being absent (Python's [AttributeError]
    for [data] is the error of an access before initialization); and at any
    time, once [initialize(data)] has returned, [get_data()] returns the
    stored payload, which is [data] when this was the first call of
    [initialize]. *)
Theorem get_data_needs_initialize (w0 : world) :
  process_start w0 →
  (∀ t, forallb (λ a, negb (is_initialize a)) t = true →
     ∃ s w1, Singleton_new (run t w0) = Ret s w1 ∧
             get_data s w1 = Raise (AttributeError "data") w1) ∧
  (∀ t data, ∃ s w1 w2 payload,
     Singleton_new (run t w0) = Ret s w1 ∧
     initialize s data w1 = Ret VNone w2 ∧
     get_data s w2 = Ret payload w2 ∧
     (forallb (λ a, negb (is_initialize a)) t = true → payload = data)).
Proof.
  intros Hs. split.
  - intros t Ht.
    destruct (Singleton_new_uninitialized_inv _ (run_uninitialized_inv t w0 Ht (or_introl Hs)))
      as (l & w1 & E & (d & (Hi & Hl & Hc) & (Hflag & Hdata))).
    exists (VRef l), w1. split; [exact E|].
    erewrite get_data_at; [|exact Hl|done]. cbn [dict]. by rewrite Hdata.
  - intros t data.
    destruct (Singleton_new_singleton_inv _ (run_singleton_inv t w0 (or_introl Hs)))
      as (l & w1 & E & H1).
    destruct (initialize_then_get_data w1 l data H1) as (w2 & payload & Ei & Eg & Hp).
    exists (VRef l), w1, w2, payload. split_and!; try done.
    intros Ht. apply Hp.
    destruct (Singleton_new_uninitialized_inv _ (run_uninitialized_inv t w0 Ht (or_introl Hs)))
      as (l' & w1' & E' & H1').
    rewrite E in E'. by injection E' as <- <-.
Qed.

Lemma get_data_needs_initialize_witness :
  process_start initial_world ∧
  (∃ s w1,
     Singleton_new (run [Call_Singleton; Call_get_data (VRef 0)] initial_world) = Ret s w1 ∧
     get_data s w1 = Raise (AttributeError "data") w1) ∧
  (∃ s w1 w2,
     Singleton_new (run [] initial_world) = Ret s w1 ∧
     initialize s (VInt 7) w1 = Ret VNone w2 ∧
     get_data s w2 = Ret (VInt 7) w2).
Proof.
  assert (H : process_start initial_world) by (split; reflexivity).
  split; [exact H|].
  destruct (get_data_needs_initialize initial_world H) as (Hbefore & Hafter).
  split.
  - exact (Hbefore [Call_Singleton; Call_get_data (VRef 0)] eq_refl).
  - destruct (Hafter [] (VInt 7)) as (s & w1 & w2 & payload & E1 & E2 & E3 & Hp).
    rewrite (Hp eq_refl) in E3. exists s, w1, w2. exact (conj E1 (conj E2 E3)).
Defined.

(** C5.  On an instance of [Singleton] that is already initialized,
    [initialize(d)] returns (it does not raise) and all it does is print
    "Singleton already initialized.": the heap, and so the stored payload,
    is as it was. *)
Theorem initialize_is_idempotent (w : world) (self d i : pyval) :
  class_at w self = Some Singleton →
  attr w self "_initialized" = Some i →
  truthy i = true →
  initialize self d w = Ret VNone (printed w "Singleton already initialized.") ∧
  attr (printed w "Singleton already initialized.") self "data" = attr w self "data".
Proof.
  intros (l & o & -> & Ho & Hc)%class_at_Some Hi Ht. split; [|done].
  unfold attr in Hi. rewrite Ho in Hi. by eapply initialize_initialized.
Qed.

Lemma initialize_is_idempotent_witness :
  let w := {| heap := [Instance Singleton [("_initialized", VBool true);
                                           ("data", VInt 1)]];
              Singleton_instance := VRef 0;
              stdout := [] |} in
  (class_at w (VRef 0) = Some Singleton ∧
   attr w (VRef 0) "_initialized" = Some (VBool true) ∧
   truthy (VBool true) = true) ∧
  initialize (VRef 0) (VInt 2) w =
    Ret VNone (printed w "Singleton already initialized.") ∧
  attr (printed w "Singleton already initialized.") (VRef 0) "data" = Some (VInt 1).
Proof.
  intros w.
  assert (H1 : class_at w (VRef 0) = Some Singleton) by reflexivity.
  assert (H2 : attr w (VRef 0) "_initialized" = Some (VBool true)) by reflexivity.
  assert (H3 : truthy (VBool true) = true) by reflexivity.
  split; [exact (conj H1 (conj H2 H3))|].
  destruct (initialize_is_idempotent w (VRef 0) (VInt 2) (VBool true) H1 H2 H3)
    as [Hret Hdata].
  split; [exact Hret|]. rewrite Hdata. reflexivity.
Defined.

(** ** Factory *)

Lemma ascii_eqb_nat a b :
  Ascii.eqb a b = Nat.eqb (nat_of_ascii a) (nat_of_ascii b).
Proof.
  destruct (Ascii.eqb_spec a b) as [->|Hne].
  - by rewrite Nat.eqb_refl.
  - symmetry. apply Nat.eqb_neq. intros H. apply Hne.
    by rewrite <- (ascii_nat_embedding a), <- (ascii_nat_embedding b), H.
Qed.

Lemma lower_ascii_same_letter a b :
  Nat.leb 65 (nat_of_ascii b) && Nat.leb (nat_of_ascii b) 90 = false →
  Ascii.eqb (lower_ascii a) b = same_letter a b.
Proof.
  intros Hb. unfold same_letter, lower_ascii. cbv zeta. rewrite Hb.
  rewrite orb_false_r. rewrite !ascii_eqb_nat.
  pose proof (nat_ascii_bounded a) as Ha.
  destruct (Nat.leb 65 (nat_of_ascii a) && Nat.leb (nat_of_ascii a) 90) eqn:E.
  - apply andb_prop in E as [E1%Nat.leb_le E2%Nat.leb_le].
    rewrite nat_ascii_embedding by lia.
    apply andb_false_iff in Hb.
    destruct (Nat.eqb_spec (nat_of_ascii a) (nat_of_ascii b)) as [Heq|Hne].
    + exfalso. rewrite <- Heq in Hb.
      destruct Hb as [Hb%Nat.leb_gt|Hb%Nat.leb_gt]; lia.
    + simpl. rewrite (Nat.eqb_sym (nat_of_ascii b)). done.
  - by rewrite orb_false_r.
Qed.

(** Lowering then comparing with a lower-case tag is comparing up to case. *)
Lemma lower_caseless s tag :
  is_lower tag = true → String.eqb (lower s) tag = caseless_eqb s tag.
Proof.
  revert tag. induction s as [|a s IH]; intros [|b tag] Ht; simpl in *; try done.
  apply andb_prop in Ht as [Hb Ht]. apply negb_true_iff in Hb.
  rewrite (lower_ascii_same_letter a b Hb), (IH tag Ht).
  by destruct (same_letter a b).
Qed.

(** C6.  [create_shape] compares its argument with the registered tags
    up to the case of the letters: it returns a new [Circle] when the
    argument is "circle" in any case, a new [Square] when it is "square"
    in any case, and otherwise returns [None], without raising, after
    printing a notice.  So "Circle" and "circle" both give a [Circle], and
    "triangle" gives [None] and the notice. *)
Theorem create_shape_ignores_case (w : world) :
  (∀ s,
     create_shape s w =
       if caseless_eqb s "circle" then
         Ret (VRef (length (heap w))) (extended w (Instance Circle []))
       else if caseless_eqb s "square" then
         Ret (VRef (length (heap w))) (extended w (Instance Square []))
       else
         Ret VNone (printed w ("Shape type '" +:+ s +:+ "' not recognized."))) ∧
  (∃ r1 w1 r2 w2,
     create_shape "Circle" w = Ret r1 w1 ∧ class_at w1 r1 = Some Circle ∧
     create_shape "circle" w = Ret r2 w2 ∧ class_at w2 r2 = Some Circle) ∧
  create_shape "triangle" w =
    Ret VNone (printed w "Shape type 'triangle' not recognized.").
Proof.
  assert (∀ s,
     create_shape s w =
       if caseless_eqb s "circle" then
         Ret (VRef (length (heap w))) (extended w (Instance Circle []))
       else if caseless_eqb s "square" then
         Ret (VRef (length (heap w))) (extended w (Instance Square []))
       else
         Ret VNone (printed w ("Shape type '" +:+ s +:+ "' not recognized."))) as H.
  { intros s. unfold create_shape.
    rewrite !lower_caseless by reflexivity.
    destruct (caseless_eqb s "circle"); [done|].
    by destruct (caseless_eqb s "square"). }
  split; [exact H|]. split.
  - do 4 eexists. rewrite !H.
    change (caseless_eqb "Circle" "circle") with true.
    change (caseless_eqb "circle" "circle") with true. cbv iota.
    split_and!; try reflexivity; unfold class_at; by rewrite heap_extended_last.
  - by rewrite H.
Qed.

(** ** Abstract factory *)

(** C7.  For a [WindowsGUIFactory] and for a [MacGUIFactory], in any
    state: [create_button()] and [create_textbox()] return, the two widgets
    are of the classes of the factory's platform, [render()] and
    [display()] on them return descriptions that contain the name of that
    platform, and neither description contains the name of the other
    platform. *)
Theorem factory_widgets_share_the_platform (w : world) (f : pyval) (c : class) (name : string) :
  class_at w f = Some c →
  platform c = Some name →
  ∃ b t w1 w2 cb ct rb rt,
    create_button f w = Ret b w1 ∧
    create_textbox f w1 = Ret t w2 ∧
    class_at w2 b = Some cb ∧ widget_platform cb = Some name ∧
    class_at w2 t = Some ct ∧ widget_platform ct = Some name ∧
    render b w2 = Ret (VStr rb) w2 ∧
    display t w2 = Ret (VStr rt) w2 ∧
    contains name rb = true ∧ contains name rt = true ∧
    (∀ c' other, platform c' = Some other → other ≠ name →
       contains other rb = false ∧ contains other rt = false).
Proof.
  intros Hc Hp.
  assert (c = WindowsGUIFactory ∨ c = MacGUIFactory) as [-> | ->]
    by (destruct c; try discriminate; auto).
  all: injection Hp as <-.
  all: eexists _, _, _, _, _, _, _, _; split_and!.
  all: try (unfold create_button; rewrite (dispatch_class_at _ _ _ _ _ Hc);
            apply alloc_spec).
  all: try (unfold create_textbox;
            rewrite (dispatch_class_at _ _ _ _ _ (class_at_extended_old _ _ _ _ Hc));
            apply alloc_spec).
  all: try (apply class_at_extended_old, class_at_extended_last).
  all: try (rewrite length_heap_extended; unfold class_at;
            rewrite heap_extended2_second; reflexivity).
  all: try (unfold render; erewrite dispatch_at by eauto with heap;
            reflexivity).
  all: try (unfold display; rewrite length_heap_extended;
            erewrite dispatch_at by eauto with heap; reflexivity).
  all: try reflexivity.
  all: intros c' other Ho Hne; destruct c'; try discriminate; injection Ho as <-; done.
Qed.

Lemma factory_widgets_share_the_platform_witness :
  let w := extended initial_world (Instance WindowsGUIFactory []) in
  (class_at w (VRef 0) = Some WindowsGUIFactory ∧
   platform WindowsGUIFactory = Some "Windows") ∧
  ∃ b t w1 w2 cb ct rb rt,
    create_button (VRef 0) w = Ret b w1 ∧
    create_textbox (VRef 0) w1 = Ret t w2 ∧
    class_at w2 b = Some cb ∧ widget_platform cb = Some "Windows" ∧
    class_at w2 t = Some ct ∧ widget_platform ct = Some "Windows" ∧
    render b w2 = Ret (VStr rb) w2 ∧
    display t w2 = Ret (VStr rt) w2 ∧
    contains "Windows" rb = true ∧ contains "Windows" rt = true ∧
    contains "Mac" rb = false ∧ contains "Mac" rt = false.
Proof.
  intros w.
  assert (H1 : class_at w (VRef 0) = Some WindowsGUIFactory) by reflexivity.
  assert (H2 : platform WindowsGUIFactory = Some "Windows") by reflexivity.
  split; [exact (conj H1 H2)|].
  destruct (factory_widgets_share_the_platform w (VRef 0) WindowsGUIFactory "Windows" H1 H2)
    as (b & t & w1 & w2 & cb & ct & rb & rt & E1 & E2 & C1 & P1 & C2 & P2 & R & D & I1 & I2 & O).
  assert (Hne : "Mac" ≠ "Windows") by discriminate.
  destruct (O MacGUIFactory "Mac" eq_refl Hne) as [O1 O2].
  exists b, t, w1, w2, cb, ct, rb, rt.
  exact (conj E1 (conj E2 (conj C1 (conj P1 (conj C2 (conj P2 (conj R (conj D
           (conj I1 (conj I2 (conj O1 O2))))))))))).
Defined.

(** [create_ui] prints the two descriptions, the button's first. *)
Lemma create_ui_prints repr w f c :
  class_at w f = Some c →
  (c = WindowsGUIFactory →
   ∃ w', create_ui repr f w = Ret VNone w' ∧
         stdout w' = stdout w ++ ["Rendering a Windows button";
                                  "Displaying a Windows text box"]) ∧
  (c = MacGUIFactory →
   ∃ w', create_ui repr f w = Ret VNone w' ∧
         stdout w' = stdout w ++ ["Rendering a Mac button";
                                  "Displaying a Mac text box"]).
Proof.
  intros Hc. split; intros ->; eexists; unfold create_ui, bind.
  all: unfold create_button; rewrite (dispatch_class_at _ _ _ _ _ Hc), alloc_spec.
  all: unfold create_textbox;
       rewrite (dispatch_class_at _ _ _ _ _ (class_at_extended_old _ _ _ _ Hc)), alloc_spec.
  all: unfold render; erewrite dispatch_at by eauto with heap.
  all: cbn [cls ret print_value py_str print].
  all: unfold display; rewrite length_heap_extended.
  all: erewrite dispatch_at by eauto with heap.
  all: cbn [cls ret print_value py_str print heap stdout].
  all: split; [reflexivity|]; cbn [stdout]; by rewrite <- app_assoc.
Qed.

(** ** Builder *)

(** *** Constructors and steps *)

Ltac unfold_steps :=
  unfold add_dough, add_sauce, add_cheese, add_topping, add_veggies,
    add_meats in *.

Lemma new_Pizza_spec w :
  new_Pizza w = Ret (VRef (length (heap w))) (extended w empty_pizza).
Proof.
  unfold new_Pizza, Pizza_init, bind. rewrite alloc_spec.
  by rewrite !setattr_fresh.
Qed.

Lemma new_PizzaBuilder_init_spec c w :
  PizzaBuilder_init (VRef (length (heap w))) (extended w (Instance c [])) =
    Ret tt (extended (extended w (Instance c [("pizza", VRef (S (length (heap w))))]))
                     empty_pizza).
Proof.
  unfold PizzaBuilder_init, bind. rewrite new_Pizza_spec.
  rewrite length_heap_extended.
  erewrite setattr_at by apply heap_extended2_first.
  by rewrite store_extended2_first.
Qed.

Lemma new_PizzaBuilder_spec w :
  new_PizzaBuilder w =
    Ret (VRef (length (heap w)))
        (extended (extended w (Instance PizzaBuilder [("pizza", VRef (S (length (heap w))))]))
                  empty_pizza).
Proof.
  unfold new_PizzaBuilder, bind. rewrite alloc_spec.
  by rewrite new_PizzaBuilder_init_spec.
Qed.

(** A step returns when the class of the builder has its method and the
    attribute it writes can take the argument. *)
Lemma run_step_at s w bl ob pl op y :
  heap w !! bl = Some ob →
  issubclass (cls ob) (step_owner s) = true →
  dict_get (dict ob) "pizza" = Some (VRef pl) →
  heap w !! pl = Some op →
  written_value s (dict_get (dict op) (written s)) = Some y →
  run_step s (VRef bl) w =
    Ret (VRef bl) (store w pl (Instance (cls op) (dict_set (dict op) (written s) y))).
Proof.
  intros Hb Hc Hp Ho Hy.
  destruct s; cbn [run_step written written_value step_owner] in *;
    unfold_steps; erewrite method_ref by done; rewrite Hc;
    unfold bind; erewrite getattr_at by done.
  - injection Hy as <-. by erewrite setattr_at.
  - injection Hy as <-. by erewrite setattr_at.
  - unfold attr_append, bind.
    destruct (dict_get (dict op) "cheese") as [[]|] eqn:E; try done.
    injection Hy as <-. erewrite getattr_at by done. cbv beta iota.
    by erewrite setattr_at.
  - unfold attr_append, bind.
    destruct (dict_get (dict op) "toppings") as [[]|] eqn:E; try done.
    injection Hy as <-. erewrite getattr_at by done. cbv beta iota.
    by erewrite setattr_at.
  - unfold attr_extend, bind.
    destruct (dict_get (dict op) "toppings") as [[]|] eqn:E; try done.
    erewrite getattr_at by done. cbv beta iota.
    destruct veggies; try done; injection Hy as <-; cbn [iterate ret];
      cbv beta iota; by erewrite setattr_at.
  - unfold attr_extend, bind.
    destruct (dict_get (dict op) "toppings") as [[]|] eqn:E; try done.
    erewrite getattr_at by done. cbv beta iota.
    destruct meats; try done; injection Hy as <-; cbn [iterate ret];
      cbv beta iota; by erewrite setattr_at.
Qed.

Lemma build_at w bl ob p :
  heap w !! bl = Some ob →
  issubclass (cls ob) PizzaBuilder = true →
  dict_get (dict ob) "pizza" = Some p →
  build (VRef bl) w = Ret p w.
Proof.
  intros Hb Hc Hp. unfold build. erewrite method_ref by done. rewrite Hc.
  by erewrite getattr_at.
Qed.

(** In the world a builder constructor leaves, a step writes the pizza. *)
Lemma run_step_fresh s w c dp y :
  issubclass c (step_owner s) = true →
  written_value s (dict_get dp (written s)) = Some y →
  let n := length (heap w) in
  let ob := Instance c [("pizza", VRef (S n))] in
  run_step s (VRef n) (extended (extended w ob) (Instance Pizza dp)) =
    Ret (VRef n) (extended (extended w ob) (Instance Pizza (dict_set dp (written s) y))).
Proof.
  intros Hc Hy n ob.
  erewrite run_step_at; [| apply heap_extended2_first | done | done
                         | apply heap_extended2_second | done ].
  by rewrite store_extended2_second.
Qed.

Lemma build_fresh w c op :
  issubclass c PizzaBuilder = true →
  let n := length (heap w) in
  let ob := Instance c [("pizza", VRef (S n))] in
  build (VRef n) (extended (extended w ob) op) =
    Ret (VRef (S n)) (extended (extended w ob) op).
Proof.
  intros Hc n ob. eapply build_at; [apply heap_extended2_first | done | done].
Qed.

Lemma new_VeggiePizzaBuilder_spec w :
  new_VeggiePizzaBuilder w =
    Ret (VRef (length (heap w)))
        (extended (extended w (Instance VeggiePizzaBuilder
                                 [("pizza", VRef (S (length (heap w))))]))
                  veggie_pizza).
Proof.
  unfold new_VeggiePizzaBuilder, VeggiePizzaBuilder_init, bind.
  rewrite alloc_spec, new_PizzaBuilder_init_spec. unfold empty_pizza.
  change (add_dough ?b ?x) with (run_step (Add_dough x) b).
  change (add_sauce ?b ?x) with (run_step (Add_sauce x) b).
  change (add_cheese ?b ?x) with (run_step (Add_cheese x) b).
  erewrite run_step_fresh; [|reflexivity|reflexivity].
  cbn [dict_set written String.eqb Ascii.eqb Bool.eqb].
  erewrite run_step_fresh; [|reflexivity|reflexivity].
  cbn [dict_set written String.eqb Ascii.eqb Bool.eqb].
  erewrite run_step_fresh; [|reflexivity|reflexivity].
  reflexivity.
Qed.



Lemma step_body_Ret (op : pyval → M unit) b w r w2 :
  (let! p := getattr b "pizza" in op p ;;; ret b)%py w = Ret r w2 →
  ∃ p, attr w b "pizza" = Some p ∧ r = b ∧ op p w = Ret tt w2.
Proof.
  unfold bind. destruct (getattr b "pizza" w) as [p w0| |] eqn:G; try discriminate.
  apply getattr_Ret in G as [-> G].
  destruct (op p w) as [[] w0| |] eqn:O; try discriminate.
  intros [= <- <-]. by exists p.
Qed.

Lemma step_body_Raise (op : pyval → M unit) b w e w2 :
  (∀ p e w2, op p w = Raise e w2 → w2 = w) →
  (let! p := getattr b "pizza" in op p ;;; ret b)%py w = Raise e w2 →
  w2 = w.
Proof.
  intros Hop. unfold bind.
  destruct (getattr b "pizza" w) as [p w0| |] eqn:G; try discriminate.
  - apply getattr_Ret in G as [-> G].
    destruct (op p w) as [[] w0| |] eqn:O; try discriminate.
    intros [= <- <-]. eauto.
  - apply getattr_Raise in G as ->. by intros [= _ <-].
Qed.

(** What a step that returns has found and done. *)
Lemma run_step_Ret s b w r w2 :
  run_step s b w = Ret r w2 →
  ∃ bl ob pl op y,
    b = VRef bl ∧ r = b ∧
    heap w !! bl = Some ob ∧
    issubclass (cls ob) (step_owner s) = true ∧
    dict_get (dict ob) "pizza" = Some (VRef pl) ∧
    heap w !! pl = Some op ∧
    written_value s (dict_get (dict op) (written s)) = Some y ∧
    w2 = store w pl (Instance (cls op) (dict_set (dict op) (written s) y)).
Proof.
  intros Hs.
  destruct s; cbn [run_step written written_value step_owner] in Hs |- *;
    unfold_steps;
    apply method_Ret in Hs as (bl & ob & -> & Hob & Hc & Hs);
    apply step_body_Ret in Hs as (p & Hp & -> & Hs);
    unfold attr in Hp; rewrite Hob in Hp.
  - apply setattr_Ret in Hs as (l & o & -> & Ho & ->). by exists bl, ob, l, o, dough.
  - apply setattr_Ret in Hs as (l & o & -> & Ho & ->). by exists bl, ob, l, o, sauce.
  - apply attr_append_Ret in Hs as (l & o & items & -> & Ho & Hi & ->).
    exists bl, ob, l, o, (VList (items ++ [cheese])). by rewrite Hi.
  - apply attr_append_Ret in Hs as (l & o & items & -> & Ho & Hi & ->).
    exists bl, ob, l, o, (VList (items ++ [topping])). by rewrite Hi.
  - apply attr_extend_Ret in Hs as (l & o & items & more & -> & Ho & Hi & It & ->).
    exists bl, ob, l, o, (VList (items ++ more)). rewrite Hi.
    apply iterate_Ret in It as [_ It]. destruct veggies; try done; by subst more.
  - apply attr_extend_Ret in Hs as (l & o & items & more & -> & Ho & Hi & It & ->).
    exists bl, ob, l, o, (VList (items ++ more)). rewrite Hi.
    apply iterate_Ret in It as [_ It]. destruct meats; try done; by subst more.
Qed.

Lemma run_step_Raise s b w e w2 : run_step s b w = Raise e w2 → w2 = w.
Proof.
  intros Hs. destruct s; cbn [run_step] in Hs; unfold_steps;
    (apply method_Raise in Hs as [->|Hs]; [done|]);
    (eapply step_body_Raise; [|exact Hs]); simpl; intros;
    eauto using setattr_Raise, attr_append_Raise, attr_extend_Raise.
Qed.

Lemma written_not_pizza s : written s ≠ "pizza".
Proof. by destruct s. Qed.

Lemma Pizza_str_nested_cheese repr w l dough sauce inner rest toppings :
  heap w !! l = Some (Instance Pizza [("dough", dough); ("sauce", sauce);
                                      ("cheese", VList (VList inner :: rest));
                                      ("toppings", toppings)]) →
  Pizza_str repr (VRef l) w =
    Raise (TypeError "sequence item: expected str instance") w.
Proof.
  intros H. unfold Pizza_str, bind.
  do 3 (erewrite getattr_at; [|done|reflexivity]; cbv beta iota).
  reflexivity.
Qed.

(** *** The two chains of the specification *)

(** C8.  In any state, [PizzaBuilder()] followed by
    [add_dough("Thin")], [add_sauce("Marinara")], [add_cheese("Mozzarella")],
    [add_topping("Olives")] and [build()] returns at every step; every step
    returns the builder it was called on, and the record that [build()]
    returns has dough "Thin", sauce "Marinara", cheese ["Mozzarella"] and
    toppings ["Olives"]. *)
Theorem plain_builder_chain (w : world) :
  ∃ b p w0 w1 w2 w3 w4,
    new_PizzaBuilder w = Ret b w0 ∧
    add_dough b (VStr "Thin") w0 = Ret b w1 ∧
    add_sauce b (VStr "Marinara") w1 = Ret b w2 ∧
    add_cheese b (VStr "Mozzarella") w2 = Ret b w3 ∧
    add_topping b (VStr "Olives") w3 = Ret b w4 ∧
    build b w4 = Ret p w4 ∧
    pizza_fields w4 p =
      [Some (VStr "Thin"); Some (VStr "Marinara");
       Some (VList [VStr "Mozzarella"]); Some (VList [VStr "Olives"])].
Proof.
  do 7 eexists. split_and!.
  - apply new_PizzaBuilder_spec.
  - by apply (run_step_fresh (Add_dough _)).
  - by apply (run_step_fresh (Add_sauce _)).
  - by apply (run_step_fresh (Add_cheese _)).
  - by apply (run_step_fresh (Add_topping _)).
  - by apply build_fresh.
  - unfold pizza_fields, attr. by rewrite heap_extended2_second.
Qed.

(** C1 (the code at the input of the claim).  In any state,
    [VeggiePizzaBuilder().add_veggies(["Pepper","Onion"]).build()] returns
    a record with dough "Thin crust", sauce "Marinara" and toppings
    ["Pepper","Onion"], whose cheese is [["Mozzarella"]], a list holding
    the list that the constructor passed to [add_cheese], and not
    ["Mozzarella"]; [str] of that record raises [TypeError] in [join]. *)
Theorem veggie_pizza_cheese_is_nested (repr : pyval → string) (w : world) :
  ∃ b p w0 w1,
    new_VeggiePizzaBuilder w = Ret b w0 ∧
    add_veggies b (VList [VStr "Pepper"; VStr "Onion"]) w0 = Ret b w1 ∧
    build b w1 = Ret p w1 ∧
    pizza_fields w1 p =
      [Some (VStr "Thin crust"); Some (VStr "Marinara");
       Some (VList [VList [VStr "Mozzarella"]]);
       Some (VList [VStr "Pepper"; VStr "Onion"])] ∧
    attr w1 p "cheese" ≠ Some (VList [VStr "Mozzarella"]) ∧
    Pizza_str repr p w1 = Raise (TypeError "sequence item: expected str instance") w1.
Proof.
  do 4 eexists. split_and!.
  - apply new_VeggiePizzaBuilder_spec.
  - by apply (run_step_fresh (Add_veggies _)).
  - by apply build_fresh.
  - unfold pizza_fields, attr. by rewrite heap_extended2_second.
  - unfold attr. by rewrite heap_extended2_second.
  - eapply Pizza_str_nested_cheese. apply heap_extended2_second.
Qed.

(** *** A built pizza and its builder *)




(** ** Prototype *)

Lemma clone_at w l o :
  heap w !! l = Some o → issubclass (cls o) Prototype = true →
  clone (VRef l) w = Ret (VRef (length (heap w))) (extended w o).
Proof.
  intros Ho Hc. unfold clone. erewrite method_ref by done. rewrite Hc.
  unfold copy_copy. rewrite Ho. by destruct o.
Qed.



(** C9.  [clone()] on an instance of a prototype class returns a
    reference that is not the original's, to an object that did not exist
    before; at that moment every attribute of the clone has the value the
    original's has, and the original is as it was; assigning any attribute
    of the clone then changes the clone and leaves every attribute of the
    original as it was. *)
Theorem clone_is_a_separate_copy (w : world) (self : pyval) (c : class) :
  class_at w self = Some c →
  issubclass c Prototype = true →
  ∃ copy w1,
    clone self w = Ret copy w1 ∧
    copy ≠ self ∧
    class_at w copy = None ∧
    (∀ name, attr w1 copy name = attr w self name) ∧
    (∀ name, attr w1 self name = attr w self name) ∧
    (∀ name x, ∃ w2,
       setattr copy name x w1 = Ret tt w2 ∧
       attr w2 copy name = Some x ∧
       (∀ n, attr w2 self n = attr w self n)).
Proof.
  intros (l & o & -> & Ho & <-)%class_at_Some Hc.
  pose proof (lookup_lt_Some _ _ _ Ho) as Hlt.
  exists (VRef (length (heap w))), (extended w o). split_and!.
  - by apply clone_at.
  - intros [= E]. lia.
  - unfold class_at. by rewrite lookup_ge_None_2.
  - intros name. rewrite attr_extended_last. unfold attr. by rewrite Ho.
  - intros name. by apply attr_extended_old.
  - intros name x. eexists. split_and!.
    + erewrite setattr_at by apply heap_extended_last. by rewrite store_extended_last.
    + rewrite attr_extended_last. apply dict_get_set_eq.
    + intros n. by apply attr_extended_old.
Qed.

Lemma clone_is_a_separate_copy_witness :
  let w := extended initial_world (Instance ConcretePrototype1 [("data", VInt 5)]) in
  let self := VRef 0 in
  (class_at w self = Some ConcretePrototype1 ∧
   issubclass ConcretePrototype1 Prototype = true) ∧
  ∃ copy w1 w2,
    clone self w = Ret copy w1 ∧
    copy ≠ self ∧
    attr w1 copy "data" = Some (VInt 5) ∧
    setattr copy "data" (VInt 10) w1 = Ret tt w2 ∧
    attr w2 copy "data" = Some (VInt 10) ∧
    attr w2 self "data" = Some (VInt 5).
Proof.
  intros w self.
  assert (H1 : class_at w self = Some ConcretePrototype1) by reflexivity.
  assert (H2 : issubclass ConcretePrototype1 Prototype = true) by reflexivity.
  split; [exact (conj H1 H2)|].
  destruct (clone_is_a_separate_copy w self ConcretePrototype1 H1 H2)
    as (copy & w1 & Hclone & Hne & _ & Hsame & _ & Hset).
  destruct (Hset "data" (VInt 10)) as (w2 & Hs & Hcopy & Horig).
  exists copy, w1, w2. split; [exact Hclone|]. split; [exact Hne|].
  split; [rewrite Hsame; reflexivity|]. split; [exact Hs|].
  split; [exact Hcopy|]. rewrite Horig. reflexivity.
Defined.

(** A prototype holding 5 is cloned and the clone is given 10: the
    original still holds 5. *)
Example clone_5_then_10 :
  (let! original := new_ConcretePrototype1 (VInt 5) in
   let! copy := clone original in
   setattr copy "data" (VInt 10) ;;;
   let! a := getattr original "data" in
   let! b := getattr copy "data" in
   ret (original, copy, a, b)) initial_world =
  Ret (VRef 0, VRef 1, VInt 5, VInt 10)
      {| heap := [Instance ConcretePrototype1 [("data", VInt 5)];
                  Instance ConcretePrototype1 [("data", VInt 10)]];
         Singleton_instance := VNone;
         stdout := [] |}.
Proof. reflexivity. Qed.



(** * Further properties *)

(** ** Factory, further *)

Lemma create_shape_spec s w :
  create_shape s w =
    if caseless_eqb s "circle" then
      Ret (VRef (length (heap w))) (extended w (Instance Circle []))
    else if caseless_eqb s "square" then
      Ret (VRef (length (heap w))) (extended w (Instance Square []))
    else
      Ret VNone (printed w ("Shape type '" +:+ s +:+ "' not recognized.")).
Proof.
  unfold create_shape. rewrite !lower_caseless by reflexivity.
  destruct (caseless_eqb s "circle"); [done|].
  by destruct (caseless_eqb s "square").
Qed.

Lemma caseless_eqb_length s tag :
  caseless_eqb s tag = true → String.length s = String.length tag.
Proof.
  revert tag. induction s as [|a s IH]; intros [|b tag] H; simpl in *; try done.
  apply andb_prop in H as [_ H]. f_equal. by apply IH.
Qed.

(** X1.  [ShapeFactory.create_shape(s).draw()]: "Drawing a circle" when
    [s] is "circle" in any case, "Drawing a square" when it is "square" in
    any case; for any other [s] the factory has returned [None], and the
    call of [draw] on it raises [AttributeError], the notice being
    printed. *)
Theorem draw_of_created_shape (w : world) (s : string) :
  (let! shape := create_shape s in draw shape) w =
    if caseless_eqb s "circle" then
      Ret (VStr "Drawing a circle") (extended w (Instance Circle []))
    else if caseless_eqb s "square" then
      Ret (VStr "Drawing a square") (extended w (Instance Square []))
    else
      Raise (AttributeError "draw")
            (printed w ("Shape type '" +:+ s +:+ "' not recognized.")).
Proof.
  unfold bind. rewrite create_shape_spec.
  destruct (caseless_eqb s "circle").
  - unfold draw. by erewrite dispatch_at by eauto with heap.
  - destruct (caseless_eqb s "square"); [|done].
    unfold draw. by erewrite dispatch_at by eauto with heap.
Qed.

(** X2.  A shape that [create_shape] returns is a new object: it did not
    exist before the call, the call leaves every object that existed as it
    was, and no later call of [create_shape] returns it again. *)
Theorem created_shape_is_new (w w1 : world) (s : string) (r : pyval) :
  create_shape s w = Ret r w1 →
  r ≠ VNone →
  class_at w r = None ∧
  (∀ l o, heap w !! l = Some o → heap w1 !! l = Some o) ∧
  (∀ s2 r2 w2, create_shape s2 w1 = Ret r2 w2 → r2 ≠ r).
Proof.
  rewrite create_shape_spec. intros H Hr.
  assert (r = VRef (length (heap w)) ∧ ∃ c, w1 = extended w (Instance c []))
    as [-> [c ->]].
  { destruct (caseless_eqb s "circle"); [injection H as <- <-; eauto|].
    destruct (caseless_eqb s "square"); injection H as <- <-; [eauto|done]. }
  split_and!.
  - unfold class_at. by rewrite lookup_ge_None_2.
  - intros l o Ho. eauto with heap.
  - intros s2 r2 w2. rewrite create_shape_spec, length_heap_extended.
    destruct (caseless_eqb s2 "circle"); [intros [= <- _] [= E]; lia|].
    destruct (caseless_eqb s2 "square"); intros [= <- _]; [intros [= E]; lia|done].
Qed.

(** X3.  [create_shape] does not trim or complete its argument: a string
    that does not have the six characters of a tag, the empty string
    among them, gives [None] and the notice. *)
Theorem create_shape_wants_six_letters (w : world) (s : string) :
  String.length s ≠ 6 →
  create_shape s w =
    Ret VNone (printed w ("Shape type '" +:+ s +:+ "' not recognized.")).
Proof.
  intros H. rewrite create_shape_spec.
  destruct (caseless_eqb s "circle") eqn:E1;
    [apply caseless_eqb_length in E1; simpl in E1; lia|].
  destruct (caseless_eqb s "square") eqn:E2;
    [apply caseless_eqb_length in E2; simpl in E2; lia|].
  done.
Qed.

(** ** Abstract factory, further *)

(** X4.  [create_ui] on what is not a concrete factory raises at its
    first line and leaves the state as it was, nothing created and nothing
    printed: [NotImplementedError] on an instance of the base [GUIFactory],
    [AttributeError] on any other instance and on a value that is not an
    instance. *)
Theorem create_ui_without_a_concrete_factory (repr : pyval → string) (w : world) (f : pyval) :
  (∀ c, class_at w f = Some c → platform c = None →
     create_ui repr f w =
       Raise (if class_eqb c GUIFactory
              then NotImplementedError "Subclasses must implement create_button"
              else AttributeError "create_button") w) ∧
  ((∀ l, f ≠ VRef l) →
     create_ui repr f w = Raise (AttributeError "create_button") w).
Proof.
  split.
  - intros c Hc Hp. unfold create_ui, bind, create_button.
    rewrite (dispatch_class_at _ _ _ _ _ Hc). by destruct c.
  - intros Hf. unfold create_ui, bind, create_button, dispatch.
    destruct f; try done. by destruct (Hf l).
Qed.

(** X5.  [create_ui] on a concrete factory returns [None], creates
    exactly two objects, first a button and then a text box, both of the
    factory's platform, and prints exactly two lines, the description of
    the button and then that of the text box. *)
Theorem create_ui_on_a_concrete_factory (repr : pyval → string) (w : world)
    (f : pyval) (c : class) (name : string) :
  class_at w f = Some c →
  platform c = Some name →
  ∃ cb ct,
    issubclass cb Button = true ∧ widget_platform cb = Some name ∧
    issubclass ct TextBox = true ∧ widget_platform ct = Some name ∧
    create_ui repr f w =
      Ret VNone
          {| heap := heap w ++ [Instance cb []; Instance ct []];
             Singleton_instance := Singleton_instance w;
             stdout := stdout w ++ ["Rendering a " +:+ name +:+ " button";
                                    "Displaying a " +:+ name +:+ " text box"] |}.
Proof.
  intros Hc Hp.
  assert (c = WindowsGUIFactory ∨ c = MacGUIFactory) as [-> | ->]
    by (destruct c; try discriminate; auto).
  all: injection Hp as <-.
  1: exists WindowsButton, WindowsTextBox.
  2: exists MacButton, MacTextBox.
  all: do 4 (split; [done|]).
  all: unfold create_ui, bind.
  all: unfold create_button; rewrite (dispatch_class_at _ _ _ _ _ Hc), alloc_spec.
  all: unfold create_textbox;
       rewrite (dispatch_class_at _ _ _ _ _ (class_at_extended_old _ _ _ _ Hc)), alloc_spec.
  all: unfold render; erewrite dispatch_at by eauto with heap.
  all: cbn [cls ret print_value py_str print].
  all: unfold display; rewrite length_heap_extended.
  all: erewrite dispatch_at by eauto with heap.
  all: cbn [cls ret print_value py_str print heap stdout extended Singleton_instance].
  all: f_equal; apply world_eq; cbn [heap stdout Singleton_instance];
       by rewrite <- ?app_assoc.
Qed.

(** ** Builder, further *)

Lemma dict_set_set d k v v' : dict_set (dict_set d k v) k v' = dict_set d k v'.
Proof.
  induction d as [|[k0 v0] d IH]; simpl.
  - by rewrite String.eqb_refl.
  - destruct (String.eqb k0 k) eqn:E; simpl; rewrite E; [done|]. by rewrite IH.
Qed.

Lemma dict_set_same d k v : dict_get d k = Some v → dict_set d k v = d.
Proof.
  induction d as [|[k0 v0] d IH]; simpl; [done|].
  destruct (String.eqb k0 k) eqn:E.
  - by intros [= ->].
  - intros H. by rewrite IH.
Qed.

Lemma List_last_cons {A} (l : list A) a x : List.last (a :: l) x = List.last l a.
Proof.
  revert a x. induction l as [|b l IH]; intros a x; [done|].
  change (List.last (b :: l) x = List.last (b :: l) a). by rewrite !IH.
Qed.

Lemma List_last_app {A} (l1 l2 : list A) x :
  List.last (l1 ++ l2) x = List.last l2 (List.last l1 x).
Proof.
  revert x. induction l1 as [|a l1 IH]; intros x; [done|].
  rewrite <- app_comm_cons, !List_last_cons. apply IH.
Qed.

Lemma store_same w l o : heap w !! l = Some o → store w l o = w.
Proof.
  intros H. apply world_eq; try done. unfold store; simpl. by apply list_insert_id.
Qed.

Lemma new_MeatLoversPizzaBuilder_spec w :
  new_MeatLoversPizzaBuilder w =
    Ret (VRef (length (heap w)))
        (extended (extended w (Instance MeatLoversPizzaBuilder
                                 [("pizza", VRef (S (length (heap w))))]))
                  (Instance Pizza (pizza_dict (VStr "Thick crust") (VStr "Tomato")
                                     [VList [VStr "Mozzarella"; VStr "Cheddar"]] []))).
Proof.
  unfold new_MeatLoversPizzaBuilder, MeatLoversPizzaBuilder_init, bind.
  rewrite alloc_spec, new_PizzaBuilder_init_spec. unfold empty_pizza.
  change (add_dough ?b ?x) with (run_step (Add_dough x) b).
  change (add_sauce ?b ?x) with (run_step (Add_sauce x) b).
  change (add_cheese ?b ?x) with (run_step (Add_cheese x) b).
  erewrite run_step_fresh; [|reflexivity|reflexivity].
  cbn [dict_set written String.eqb Ascii.eqb Bool.eqb].
  erewrite run_step_fresh; [|reflexivity|reflexivity].
  cbn [dict_set written String.eqb Ascii.eqb Bool.eqb].
  erewrite run_step_fresh; [|reflexivity|reflexivity].
  reflexivity.
Qed.

(** What the constructor of each builder class leaves. *)
Lemma instantiate_builder w c :
  issubclass c PizzaBuilder = true →
  instantiate c w =
    Ret (VRef (length (heap w)))
        (extended (extended w (Instance c [("pizza", VRef (S (length (heap w))))]))
                  (Instance Pizza (pizza_dict (preset_dough c) (preset_sauce c)
                                     (preset_cheese c) []))).
Proof.
  intros Hc. destruct c; try discriminate; cbn [instantiate].
  - apply new_PizzaBuilder_spec.
  - apply new_VeggiePizzaBuilder_spec.
  - apply new_MeatLoversPizzaBuilder_spec.
Qed.

(** A chain of applicable steps on a builder that holds the only
    reference to its pizza. *)
Lemma run_steps_fresh w c ss :
  forallb (applicable c) ss = true →
  ∀ d s cs ts,
    let n := length (heap w) in
    let ob := Instance c [("pizza", VRef (S n))] in
    run_steps ss (VRef n)
      (extended (extended w ob) (Instance Pizza (pizza_dict d s cs ts))) =
    Ret (VRef n)
      (extended (extended w ob)
         (Instance Pizza
            (pizza_dict (List.last (dough_args ss) d) (List.last (sauce_args ss) s)
                        (cs ++ cheese_args ss) (ts ++ topping_items ss)))).
Proof.
  induction ss as [|st ss IH]; intros Hss d s cs ts n ob; subst n ob.
  - cbn. by rewrite !app_nil_r.
  - cbn [forallb] in Hss. apply andb_prop in Hss as [Hst Hss].
    unfold applicable in Hst. apply andb_prop in Hst as [Hown Harg].
    cbn [run_steps]. unfold bind.
    assert (∃ y, written_value st (dict_get (pizza_dict d s cs ts) (written st)) = Some y ∧
                 dict_set (pizza_dict d s cs ts) (written st) y =
                 pizza_dict (List.last (dough_args [st]) d) (List.last (sauce_args [st]) s)
                            (cs ++ cheese_args [st]) (ts ++ topping_items [st]))
      as (y & Hy & Hd).
    { destruct st as [x|x|x|x|x|x]; cbn in Harg |- *;
        try (eexists; split; [reflexivity|]; by rewrite ?app_nil_r).
      all: destruct x; try discriminate; eexists; split; [reflexivity|];
        by rewrite ?app_nil_r. }
    erewrite run_step_fresh by done. rewrite Hd.
    rewrite IH by done. do 3 f_equal.
    unfold pizza_dict.
    change (st :: ss) with ([st] ++ ss).
    unfold dough_args, sauce_args, cheese_args, topping_items.
    rewrite !flat_map_app, <- !app_assoc.
    fold (dough_args [st]) (dough_args ss) (sauce_args [st]) (sauce_args ss).
    by rewrite !List_last_app.
Qed.

(** X6.  For each of the three builder classes and every chain of steps
    that the class has, with arguments that are not lists and, where a
    step takes a collection, lists of items that are not lists
    ([unshared_arg]): the constructor, the chain and [build()] all return,
    and the pizza has for dough and sauce the argument of the last
    [add_dough] and [add_sauce] (the constructor's value when there is
    none), for cheese what the constructor put followed by the arguments
    of the [add_cheese] calls in order, and for toppings the arguments of
    [add_topping] and the items of [add_veggies] and [add_meats], in the
    order of the calls. *)
Theorem builder_chain_fields (w : world) (c : class) (ss : list step) :
  issubclass c PizzaBuilder = true →
  forallb (applicable c) ss = true →
  forallb unshared_arg ss = true →
  ∃ b p w1 w2,
    instantiate c w = Ret b w1 ∧
    run_steps ss b w1 = Ret b w2 ∧
    build b w2 = Ret p w2 ∧
    pizza_fields w2 p =
      [Some (List.last (dough_args ss) (preset_dough c));
       Some (List.last (sauce_args ss) (preset_sauce c));
       Some (VList (preset_cheese c ++ cheese_args ss));
       Some (VList (topping_items ss))].
Proof.
  intros Hc Hss _. do 4 eexists. split_and!.
  - by apply instantiate_builder.
  - by apply run_steps_fresh.
  - by apply build_fresh.
  - unfold pizza_fields, attr. by rewrite heap_extended2_second.
Qed.

(** X7.  A pizza of a [VeggiePizzaBuilder] or of a
    [MeatLoversPizzaBuilder] cannot be printed, whatever steps follow the
    constructor, their arguments being values that are not lists (lists of
    such items where a step takes a collection, [unshared_arg]) and the
    dough and sauce they pass being [None], booleans, numbers or strings
    ([plain]): its first cheese is the list that the constructor passed to
    [add_cheese], and [Pizza.__str__], having formatted dough and sauce,
    raises [TypeError] on it. *)
Theorem preset_pizza_is_not_printable (repr : pyval → string) (w : world)
    (c : class) (ss : list step) :
  issubclass c PizzaBuilder = true →
  c ≠ PizzaBuilder →
  forallb (applicable c) ss = true →
  forallb unshared_arg ss = true →
  forallb plain (dough_args ss ++ sauce_args ss) = true →
  ∃ b p w1 w2,
    instantiate c w = Ret b w1 ∧
    run_steps ss b w1 = Ret b w2 ∧
    build b w2 = Ret p w2 ∧
    Pizza_str repr p w2 = Raise (TypeError "sequence item: expected str instance") w2.
Proof.
  intros Hc Hne Hss _ _. do 4 eexists. split_and!.
  - by apply instantiate_builder.
  - by apply run_steps_fresh.
  - by apply build_fresh.
  - destruct c; try discriminate; try done;
      eapply Pizza_str_nested_cheese; apply heap_extended2_second.
Qed.

(** *** Printing a pizza *)

Lemma join_items_strings sep items :
  forallb is_str items = true →
  join_items sep items = Some (String.concat sep (map str_text items)).
Proof.
  induction items as [|x items IH]; [done|].
  cbn [forallb]. intros [Hx Hi]%andb_prop.
  destruct x; try discriminate. cbn [map str_text].
  destruct items as [|y items]; [done|].
  change (join_items sep (VStr s :: y :: items)) with
    (match join_items sep (y :: items) with
     | Some r => Some (s +:+ sep +:+ r)
     | None => None
     end).
  by rewrite IH.
Qed.

Lemma join_items_not_strings sep items :
  forallb is_str items = false → join_items sep items = None.
Proof.
  induction items as [|x items IH]; [done|].
  cbn [forallb]. destruct x; try done.
  cbn [is_str andb]. intros Hi. destruct items as [|y items]; [done|].
  change (join_items sep (VStr s :: y :: items)) with
    (match join_items sep (y :: items) with
     | Some r => Some (s +:+ sep +:+ r)
     | None => None
     end).
  by rewrite IH.
Qed.

(** X8.  [Pizza.__str__] on a pizza whose dough and sauce are [None],
    booleans, numbers or strings ([plain]) and whose cheese and toppings
    are lists: when every item of both lists is a string it returns the
    four lines "Dough: ..", "Sauce: ..", "Cheese: .." and "Toppings: ..",
    the items joined with ", " (nothing after the colon for an empty
    list); otherwise it raises [TypeError].  It changes nothing. *)
Theorem Pizza_str_joins_strings (repr : pyval → string) (w : world) (p : pyval)
    (dough sauce : pyval) (cheese toppings : list pyval) :
  attr w p "dough" = Some dough →
  attr w p "sauce" = Some sauce →
  attr w p "cheese" = Some (VList cheese) →
  attr w p "toppings" = Some (VList toppings) →
  plain dough = true →
  plain sauce = true →
  Pizza_str repr p w =
    if forallb is_str cheese && forallb is_str toppings then
      Ret (VStr ("Dough: " +:+ py_str repr dough +:+ newline +:+
                 "Sauce: " +:+ py_str repr sauce +:+ newline +:+
                 "Cheese: " +:+ String.concat ", " (map str_text cheese) +:+ newline +:+
                 "Toppings: " +:+ String.concat ", " (map str_text toppings))) w
    else Raise (TypeError "sequence item: expected str instance") w.
Proof.
  intros Hd Hs Hc Ht _ _. unfold Pizza_str, bind.
  rewrite (attr_getattr _ _ _ _ Hd), (attr_getattr _ _ _ _ Hs),
    (attr_getattr _ _ _ _ Hc).
  unfold str_join, bind. cbn [iterate ret].
  destruct (forallb is_str cheese) eqn:Ec.
  - rewrite (join_items_strings _ _ Ec). cbn [ret].
    rewrite (attr_getattr _ _ _ _ Ht). cbn [iterate ret].
    destruct (forallb is_str toppings) eqn:Et.
    + by rewrite (join_items_strings _ _ Et).
    + by rewrite (join_items_not_strings _ _ Et).
  - by rewrite (join_items_not_strings _ _ Ec).
Qed.

(** *** Steps in any state *)

(** A step keeps the builder a builder of the same pizza. *)
Lemma builder_after_store w (bl : loc) ob (pl : loc) op name y :
  heap w !! bl = Some ob →
  heap w !! pl = Some op →
  name ≠ "pizza" →
  ∃ ob', heap (store w pl (Instance (cls op) (dict_set (dict op) name y))) !! bl = Some ob' ∧
         cls ob' = cls ob ∧
         dict_get (dict ob') "pizza" = dict_get (dict ob) "pizza".
Proof.
  intros Hb Hp Hn. destruct (decide (pl = bl)) as [E|Hne].
  - subst pl. rewrite Hb in Hp. injection Hp as <-. eexists. split; [eauto with heap|].
    split; [done|]. cbn [dict]. by rewrite dict_get_set_ne.
  - exists ob. by rewrite heap_store_ne.
Qed.

(** [add_veggies(xs)] and [add_meats(xs)] with a list do what
    [add_topping] does for each item of the list in turn. *)
Lemma add_toppings_one_by_one xs :
  ∀ w bl ob pl op items,
    heap w !! bl = Some ob →
    issubclass (cls ob) PizzaBuilder = true →
    dict_get (dict ob) "pizza" = Some (VRef pl) →
    heap w !! pl = Some op →
    dict_get (dict op) "toppings" = Some (VList items) →
    run_steps (map Add_topping xs) (VRef bl) w =
      Ret (VRef bl)
          (store w pl (Instance (cls op)
                         (dict_set (dict op) "toppings" (VList (items ++ xs))))).
Proof.
  induction xs as [|x xs IH]; intros w bl ob pl op items Hb Hc Hp Ho Hi.
  - cbn. rewrite app_nil_r, (dict_set_same _ _ _ Hi).
    destruct op as [c d]. cbn [cls dict]. by rewrite store_same.
  - cbn [map run_steps]. unfold bind.
    erewrite (run_step_at (Add_topping x)); [|done|done|done|done|].
    2: { cbn [written written_value]. by rewrite Hi. }
    cbn [written].
    destruct (builder_after_store w bl ob pl op "toppings" (VList (items ++ [x])) Hb Ho)
      as (ob' & Hb' & Hc' & Hp'); [done|].
    erewrite (IH _ bl ob' pl
                (Instance (cls op) (dict_set (dict op) "toppings" (VList (items ++ [x]))))
                (items ++ [x])).
    + rewrite store_store. cbn [cls dict]. by rewrite dict_set_set, <- app_assoc.
    + exact Hb'.
    + by rewrite Hc'.
    + by rewrite Hp'.
    + eauto with heap.
    + cbn [dict]. apply dict_get_set_eq.
Qed.

(** X9.  When [add_veggies(xs)] or [add_meats(xs)] with a list [xs]
    returns, calling [add_topping] on the same builder for each item of
    [xs] in order returns the same builder and leaves the same state. *)
Theorem bulk_step_is_repeated_add_topping (w w2 : world) (b r : pyval)
    (s : step) (xs : list pyval) :
  bulk_arg s = Some (VList xs) →
  run_step s b w = Ret r w2 →
  run_steps (map Add_topping xs) b w = Ret r w2.
Proof.
  intros Hs Hrun.
  apply run_step_Ret in Hrun as (bl & ob & pl & op & y & -> & -> & Hb & Hc & Hp & Ho & Hy & ->).
  assert (written s = "toppings") as Hw by (by destruct s).
  rewrite Hw in *.
  destruct (dict_get (dict op) "toppings") as [[]|] eqn:Hi;
    try (by destruct s).
  assert (y = VList (items ++ xs)) as ->.
  { destruct s; try discriminate; cbn in Hs, Hy; injection Hs as ->; by injection Hy as <-. }
  eapply add_toppings_one_by_one; eauto.
  destruct s; try discriminate; cbn [step_owner] in Hc;
    destruct (cls ob); try discriminate; done.
Qed.

(** X10.  A step that the class of a builder neither defines nor
    inherits ([add_veggies] on a plain or a meat lovers builder,
    [add_meats] on a plain or a veggie builder, any step on an instance
    that is not a builder) raises [AttributeError] for the name of the
    step and changes nothing. *)
Theorem step_of_another_builder (w : world) (b : pyval) (c : class) (s : step) :
  class_at w b = Some c →
  issubclass c (step_owner s) = false →
  run_step s b w = Raise (AttributeError (step_name s)) w.
Proof.
  intros (bl & ob & -> & Hb & <-)%class_at_Some Hc.
  destruct s; cbn [run_step step_owner step_name] in *; unfold_steps;
    erewrite method_ref by done; by rewrite Hc.
Qed.

(** X11.  [add_veggies] and [add_meats] on a builder whose pizza has a
    list of toppings: with [None], a boolean, a number or an instance of
    one of the classes of [design_patterns/intro.py] as argument
    ([not_iterable]) the step raises [TypeError] and changes nothing; with
    the empty list it returns the builder and changes nothing. *)
Theorem bulk_step_and_its_argument (w : world) (b p : pyval) (c : class)
    (items : list pyval) (s : step) (x : pyval) :
  class_at w b = Some c →
  issubclass c (step_owner s) = true →
  attr w b "pizza" = Some p →
  attr w p "toppings" = Some (VList items) →
  bulk_arg s = Some x →
  (not_iterable w x = true →
     run_step s b w = Raise (TypeError "object is not iterable") w) ∧
  (x = VList [] → run_step s b w = Ret b w).
Proof.
  intros (bl & ob & -> & Hb & <-)%class_at_Some Hc Hp Ht Hs.
  unfold attr in Hp. rewrite Hb in Hp.
  assert (∃ pl op, p = VRef pl ∧ heap w !! pl = Some op ∧
                   dict_get (dict op) "toppings" = Some (VList items))
    as (pl & op & -> & Ho & Hi).
  { unfold attr in Ht. destruct p; try discriminate.
    destruct (heap w !! l) as [op|] eqn:Ho; [|discriminate]. by exists l, op. }
  split.
  - intros Hx.
    destruct s; try discriminate; cbn in Hs; injection Hs as ->;
      cbn [run_step step_owner] in *; unfold_steps;
      erewrite method_ref by done; rewrite Hc;
      unfold bind; erewrite getattr_at by done;
      unfold attr_extend, bind; erewrite getattr_at by done;
      by destruct x.
  - intros ->.
    erewrite run_step_at; [|done|done|done|done|].
    2: { assert (written s = "toppings") as -> by (by destruct s).
         rewrite Hi. destruct s; try discriminate; cbn in Hs; injection Hs as ->;
           reflexivity. }
    assert (written s = "toppings") as -> by (by destruct s).
    rewrite app_nil_r, (dict_set_same _ _ _ Hi).
    destruct op as [co d]. cbn [cls dict]. by rewrite store_same.
Qed.

(** *** Two builders *)

Lemma attr_builder_after_step s b w r w1 :
  run_step s b w = Ret r w1 →
  r = b ∧
  attr w1 b "pizza" = attr w b "pizza" ∧
  ∀ l, attr w b "pizza" ≠ Some (VRef l) → heap w1 !! l = heap w !! l.
Proof.
  intros (bl & ob & pl & op & y & -> & -> & Hb & Hc & Hp & Ho & Hy & ->)%run_step_Ret.
  split; [done|].
  destruct (builder_after_store w bl ob pl op (written s) y Hb Ho (written_not_pizza s))
    as (ob' & Hb' & Hc' & Hp').
  split.
  - unfold attr. by rewrite Hb', Hb.
  - intros l Hl. apply heap_store_ne. intros ->. apply Hl.
    unfold attr. by rewrite Hb.
Qed.

(** A chain of steps writes to no object but the pizza of its builder,
    whether it comes to its end or raises on the way. *)
Lemma run_steps_frame ss :
  ∀ w b l,
    attr w b "pizza" ≠ Some (VRef l) →
    heap (world_after (run_steps ss b w) w) !! l = heap w !! l.
Proof.
  induction ss as [|s ss IH]; intros w b l Hl; [done|].
  cbn [run_steps]. unfold bind.
  destruct (run_step s b w) as [r w1|e w1|] eqn:Hs; [| |done].
  - apply attr_builder_after_step in Hs as (-> & Hp & Hframe).
    specialize (IH w1 b l). rewrite Hp in IH. specialize (IH Hl).
    rewrite <- (Hframe l Hl).
    destruct (run_steps ss b w1) as [r2 w2|e2 w2|]; cbn [world_after] in *;
      [done|done|]. by rewrite (Hframe l Hl).
  - by apply run_step_Raise in Hs as ->.
Qed.

(** X12.  Two builders, of any of the three classes, constructed one
    after the other have two different pizzas, and whatever chain of steps
    is applied to the first, to its end or until a step raises, the second
    builder still builds its own pizza and the fields of that pizza are
    as they were. *)
Theorem builders_do_not_share (w : world) (c1 c2 : class) (ss : list step) :
  issubclass c1 PizzaBuilder = true →
  issubclass c2 PizzaBuilder = true →
  ∃ b1 b2 p1 p2 w1 w2,
    instantiate c1 w = Ret b1 w1 ∧
    instantiate c2 w1 = Ret b2 w2 ∧
    build b1 w2 = Ret p1 w2 ∧
    build b2 w2 = Ret p2 w2 ∧
    p1 ≠ p2 ∧
    let w3 := world_after (run_steps ss b1 w2) w2 in
    build b2 w3 = Ret p2 w3 ∧
    pizza_fields w3 p2 = pizza_fields w2 p2.
Proof.
  intros H1 H2.
  set (n := length (heap w)).
  set (ob1 := Instance c1 [("pizza", VRef (S n))]).
  set (pz1 := Instance Pizza (pizza_dict (preset_dough c1) (preset_sauce c1) (preset_cheese c1) [])).
  set (w1 := extended (extended w ob1) pz1).
  set (ob2 := Instance c2 [("pizza", VRef (S (length (heap w1))))]).
  set (pz2 := Instance Pizza (pizza_dict (preset_dough c2) (preset_sauce c2) (preset_cheese c2) [])).
  set (w2 := extended (extended w1 ob2) pz2).
  assert (length (heap w1) = S (S n)) as Hlen
    by (unfold w1; by rewrite !length_heap_extended).
  assert (heap w2 !! n = Some ob1) as Hb1 by (unfold w2, w1; eauto 6 with heap).
  assert (heap w2 !! length (heap w1) = Some ob2) as Hb2 by (unfold w2; eauto with heap).
  assert (heap w2 !! S (length (heap w1)) = Some pz2) as Hp2 by (unfold w2; eauto with heap).
  exists (VRef n), (VRef (length (heap w1))), (VRef (S n)), (VRef (S (length (heap w1)))), w1, w2.
  split_and!.
  - by apply instantiate_builder.
  - by apply instantiate_builder.
  - by eapply build_at.
  - by eapply build_at.
  - rewrite Hlen. intros [= E]. lia.
  - cbv zeta.
    assert (∀ l, l ≠ S n →
              heap (world_after (run_steps ss (VRef n) w2) w2) !! l = heap w2 !! l) as Hframe.
    { intros l Hl. apply run_steps_frame. rewrite (attr_at _ _ _ _ Hb1). cbn. congruence. }
    split.
    + eapply build_at; [rewrite Hframe by lia; exact Hb2|done|done].
    + unfold pizza_fields, attr. by rewrite Hframe by lia.
Qed.

(** ** Prototype, further *)

(** X13.  [clone()] is a shallow copy: it creates one object, and an
    attribute of the original that refers to another instance refers to
    the same instance in the clone, so that an attribute assigned on that
    instance through the clone is read through the original. *)
Theorem clone_shares_nested_instances (w : world) (self : pyval) (c : class)
    (name : string) (n : loc) (o : instance) :
  class_at w self = Some c →
  issubclass c Prototype = true →
  attr w self name = Some (VRef n) →
  heap w !! n = Some o →
  self ≠ VRef n →
  ∃ copy w1,
    clone self w = Ret copy w1 ∧
    length (heap w1) = S (length (heap w)) ∧
    attr w1 copy name = Some (VRef n) ∧
    ∀ k x, ∃ w2,
      (let! held := getattr copy name in setattr held k x) w1 = Ret tt w2 ∧
      (let! held := getattr self name in getattr held k) w2 = Ret x w2.
Proof.
  intros (l & os & -> & Ho & <-)%class_at_Some Hc Hn Hnest Hne.
  pose proof (lookup_lt_Some _ _ _ Ho) as Hlt.
  pose proof (lookup_lt_Some _ _ _ Hnest) as Hlt'.
  assert (n ≠ l) as Hnl by congruence.
  exists (VRef (length (heap w))), (extended w os).
  assert (attr (extended w os) (VRef (length (heap w))) name = Some (VRef n)) as Hcopy.
  { rewrite attr_extended_last. unfold attr in Hn. by rewrite Ho in Hn. }
  split_and!.
  - by apply clone_at.
  - apply length_heap_extended.
  - exact Hcopy.
  - intros k x. eexists. split.
    + unfold bind. rewrite (attr_getattr _ _ _ _ Hcopy).
      erewrite setattr_at by eauto with heap. reflexivity.
    + unfold bind.
      erewrite getattr_at; [| |].
      2: { rewrite heap_store_ne by done. eauto with heap. }
      2: { unfold attr in Hn. rewrite Ho in Hn. exact Hn. }
      erewrite getattr_at; [reflexivity| |].
      * eapply heap_store_eq. eauto with heap.
      * cbn [dict]. apply dict_get_set_eq.
Qed.

(** ** The singleton among the other classes *)

Lemma count_extended c w o :
  count_instances c (extended w o) =
  count_instances c w + (if class_eqb (cls o) c then 1 else 0).
Proof.
  unfold count_instances, extended; simpl.
  rewrite List.filter_app, length_app. simpl.
  by destruct (class_eqb (cls o) c).
Qed.

Lemma benign_refl w : benign w w.
Proof. split_and!; try done. intros l o Ho. by exists o. Qed.

Lemma benign_trans w1 w2 w3 : benign w1 w2 → benign w2 w3 → benign w1 w3.
Proof.
  intros (Hi & Hc & Ho) (Hi' & Hc' & Ho'). split_and!; [congruence..|].
  intros l o Hl. destruct (Ho l o Hl) as (o' & Hl' & E1 & E2 & E3).
  destruct (Ho' l o' Hl') as (o'' & Hl'' & E1' & E2' & E3').
  exists o''. split_and!; congruence.
Qed.

Lemma benign_printed w line : benign w (printed w line).
Proof. split_and!; try done. intros l o Ho. by exists o. Qed.

Lemma benign_extended w o : cls o ≠ Singleton → benign w (extended w o).
Proof.
  intros Hc. split_and!; try done.
  - rewrite count_extended. destruct (class_eqb (cls o) Singleton) eqn:E; [|lia].
    by apply class_eqb_eq in E.
  - intros l o' Ho. exists o'. eauto with heap.
Qed.

Lemma benign_store w l o name x :
  heap w !! l = Some o →
  name ≠ "_initialized" → name ≠ "data" →
  benign w (store w l (Instance (cls o) (dict_set (dict o) name x))).
Proof.
  intros Ho H1 H2. split_and!; try done.
  - by erewrite count_store.
  - intros l' o' Ho'. destruct (decide (l = l')) as [<-|Hne].
    + pose proof (eq_trans (eq_sym Ho) Ho') as E. injection E as <-.
      eexists. split; [eauto with heap|].
      cbn [cls dict]. by rewrite !dict_get_set_ne.
    + exists o'. by rewrite heap_store_ne.
Qed.

Lemma quiet_ret {A} (a : A) : quiet (ret a).
Proof. intros w. apply benign_refl. Qed.

Lemma quiet_raise {A} e : quiet (@raise A e).
Proof. intros w. apply benign_refl. Qed.

Lemma quiet_print line : quiet (print line).
Proof. intros w. apply benign_printed. Qed.

Lemma quiet_bind {A B} (m : M A) (k : A → M B) :
  quiet m → (∀ a, quiet (k a)) → quiet (bind m k).
Proof.
  intros Hm Hk w. unfold bind. specialize (Hm w).
  destruct (m w) as [a w1|e w1|]; cbn [world_after] in *; [|done|done].
  specialize (Hk a w1). destruct (k a w1) as [b w2|e w2|]; cbn [world_after] in *.
  - by eapply benign_trans.
  - by eapply benign_trans.
  - apply benign_refl.
Qed.

Lemma quiet_getattr v name : quiet (getattr v name).
Proof.
  intros w. unfold getattr. destruct v; try apply benign_refl.
  destruct (heap w !! l) as [o|]; [|apply benign_refl].
  destruct (dict_get (dict o) name); apply benign_refl.
Qed.

Lemma quiet_setattr v name x :
  name ≠ "_initialized" → name ≠ "data" → quiet (setattr v name x).
Proof.
  intros H1 H2 w. unfold setattr. destruct v; try apply benign_refl.
  destruct (heap w !! l) as [o|] eqn:Ho; [|apply benign_refl].
  by apply benign_store.
Qed.

Lemma quiet_alloc c : c ≠ Singleton → quiet (alloc c).
Proof. intros Hc w. rewrite alloc_spec. by apply benign_extended. Qed.

Lemma quiet_dispatch {A} self name (table : class → option (M A)) :
  (∀ c body, table c = Some body → quiet body) → quiet (dispatch self name table).
Proof.
  intros H w. unfold dispatch. destruct self; try apply benign_refl.
  destruct (heap w !! l) as [o|]; [|apply benign_refl].
  destruct (table (cls o)) as [body|] eqn:E; [|apply benign_refl].
  by apply (H _ _ E).
Qed.

Lemma quiet_method {A} self name owner (body : M A) :
  quiet body → quiet (method self name owner body).
Proof.
  intros H. apply quiet_dispatch. intros c b. by destruct (issubclass c owner); intros [= <-].
Qed.

Lemma quiet_iterate v : quiet (iterate v).
Proof. destruct v; first [apply quiet_ret | apply quiet_raise]. Qed.

Lemma quiet_str_join sep v : quiet (str_join sep v).
Proof.
  apply quiet_bind; [apply quiet_iterate|]. intros items.
  destruct (join_items sep items); [apply quiet_ret | apply quiet_raise].
Qed.

Create HintDb quiet.
#[local] Hint Resolve quiet_ret quiet_raise quiet_print quiet_getattr quiet_iterate
  quiet_str_join : quiet.

Ltac quiet_step :=
  first
    [ apply quiet_bind; [|intros ?]
    | apply quiet_method
    | apply quiet_setattr; discriminate
    | apply quiet_alloc; discriminate
    | solve [auto with quiet]
    | match goal with |- quiet (match ?v with _ => _ end) => destruct v end ].

Ltac quiet_all := repeat quiet_step.

Lemma quiet_run_step s self : quiet (run_step s self).
Proof. destruct s; cbn [run_step]; unfold_steps; quiet_all. Qed.

Lemma quiet_instantiate c : c ≠ Singleton → quiet (instantiate c).
Proof.
  intros Hc. destruct c; cbn [instantiate]; try done;
    try (apply quiet_alloc; discriminate); try apply quiet_raise.
  - unfold new_Pizza, Pizza_init. quiet_all.
  - unfold new_PizzaBuilder. quiet_all.
  - unfold new_VeggiePizzaBuilder, VeggiePizzaBuilder_init. quiet_all.
  - unfold new_MeatLoversPizzaBuilder, MeatLoversPizzaBuilder_init. quiet_all.
Qed.

Lemma quiet_new_ConcretePrototype1 data : quiet (new_ConcretePrototype1 data).
Proof.
  intros w. unfold new_ConcretePrototype1, ConcretePrototype1_init, bind.
  rewrite alloc_spec, setattr_fresh. by apply benign_extended.
Qed.

Lemma quiet_new_ConcretePrototype2 value : quiet (new_ConcretePrototype2 value).
Proof.
  intros w. unfold new_ConcretePrototype2, ConcretePrototype2_init, bind.
  rewrite alloc_spec, setattr_fresh. by apply benign_extended.
Qed.

Lemma quiet_clone self : quiet (clone self).
Proof.
  intros w. unfold clone, method, dispatch. destruct self; try apply benign_refl.
  destruct (heap w !! l) as [o|] eqn:Ho; [|apply benign_refl].
  destruct (issubclass (cls o) Prototype) eqn:Hc; [|apply benign_refl].
  unfold copy_copy. rewrite Ho. cbn [world_after].
  apply (benign_extended w (Instance (cls o) (dict o))).
  cbn [cls]. intros E. by rewrite E in Hc.
Qed.

Lemma quiet_create_shape s : quiet (create_shape s).
Proof.
  unfold create_shape.
  destruct (String.eqb (lower s) "circle"); [apply quiet_alloc; discriminate|].
  destruct (String.eqb (lower s) "square"); [apply quiet_alloc; discriminate|].
  quiet_all.
Qed.

Lemma quiet_widgets self :
  quiet (create_button self) ∧ quiet (create_textbox self) ∧
  quiet (render self) ∧ quiet (display self) ∧ quiet (draw self).
Proof.
  split_and!; apply quiet_dispatch; intros c body; destruct c; intros [= <-];
    first [apply quiet_raise | apply quiet_ret | apply quiet_alloc; discriminate].
Qed.

(** Every call but the three about the singleton is benign. *)
Lemma quiet_do_call repr c : singleton_action c = None → quiet (do_call repr c).
Proof.
  intros Hc. destruct c; cbn [do_call]; try discriminate.
  - apply quiet_instantiate. by intros ->.
  - apply quiet_new_ConcretePrototype1.
  - apply quiet_new_ConcretePrototype2.
  - apply quiet_create_shape.
  - apply quiet_widgets.
  - apply quiet_widgets.
  - apply quiet_widgets.
  - apply quiet_widgets.
  - apply quiet_widgets.
  - unfold create_ui, print_value.
    repeat (apply quiet_bind; [first [apply quiet_widgets | apply quiet_print]|intros ?]).
    apply quiet_ret.
  - unfold Pizza_str. quiet_all.
  - apply quiet_run_step.
  - unfold build. quiet_all.
  - apply quiet_clone.
  - unfold operation. quiet_all.
  - unfold process. quiet_all.
Qed.

Lemma benign_constructed w w' l d :
  benign w w' → constructed w l d →
  ∃ d', constructed w' l d' ∧
        dict_get d' "_initialized" = dict_get d "_initialized" ∧
        dict_get d' "data" = dict_get d "data".
Proof.
  intros (Hi & Hc & Ho) (Hi' & Hl & Hc').
  destruct (Ho l _ Hl) as ([c' d'] & Hl' & E1 & E2 & E3). cbn in E1, E2, E3. subst c'.
  exists d'. split; [|done]. split_and!; [congruence|exact Hl'|congruence].
Qed.

Lemma benign_process_start w w' : benign w w' → process_start w → process_start w'.
Proof. intros (Hi & Hc & _) [Hi' Hc']. split; congruence. Qed.

Lemma benign_singleton_at w w' l : benign w w' → singleton_at l w → singleton_at l w'.
Proof.
  intros Hb (d & Hcon & Hd).
  destruct (benign_constructed w w' l d Hb Hcon) as (d' & Hcon' & E1 & E2).
  exists d'. split; [done|]. unfold fresh_dict, initialized_dict in *.
  rewrite E1, E2. done.
Qed.

Lemma benign_fresh_at w w' l : benign w w' → fresh_at l w → fresh_at l w'.
Proof.
  intros Hb (d & Hcon & Hd).
  destruct (benign_constructed w w' l d Hb Hcon) as (d' & Hcon' & E1 & E2).
  exists d'. split; [done|]. unfold fresh_dict in *. by rewrite E1, E2.
Qed.

Lemma benign_payload_at w w' l p : benign w w' → payload_at l p w → payload_at l p w'.
Proof.
  intros Hb (d & Hcon & Hf & Hd).
  destruct (benign_constructed w w' l d Hb Hcon) as (d' & Hcon' & E1 & E2).
  exists d'. split; [done|]. by rewrite E1, E2.
Qed.

(** A call is one of the three about the singleton, or it is benign. *)
Lemma do_call_cases repr c w :
  (∃ a, singleton_action c = Some a ∧ world_after (do_call repr c w) w = perform a w) ∨
  (singleton_action c = None ∧ benign w (world_after (do_call repr c w) w)).
Proof.
  destruct (singleton_action c) as [a|] eqn:E.
  - left. exists a. split; [done|].
    destruct c; try discriminate; cbn in E.
    + destruct c; try discriminate. by injection E as <-.
    + by injection E as <-.
    + by injection E as <-.
  - right. split; [done|]. by apply quiet_do_call.
Qed.

Lemma run_calls_singleton_at repr cs l w :
  singleton_at l w → singleton_at l (run_calls repr cs w).
Proof.
  revert w. induction cs as [|c cs IH]; intros w H; [done|].
  cbn. apply IH.
  destruct (do_call_cases repr c w) as [(a & _ & ->)|[_ Hb]].
  - by apply perform_singleton_at.
  - by eapply benign_singleton_at.
Qed.

Lemma run_calls_singleton_inv repr cs w :
  singleton_inv w → singleton_inv (run_calls repr cs w).
Proof.
  revert w. induction cs as [|c cs IH]; intros w H; [done|].
  cbn. apply IH.
  destruct (do_call_cases repr c w) as [(a & _ & ->)|[_ Hb]].
  - by apply perform_singleton_inv.
  - destruct H as [Hs|[l Hl]].
    + left. by eapply benign_process_start.
    + right. exists l. by eapply benign_singleton_at.
Qed.

Lemma run_calls_uninitialized_inv repr cs w :
  forallb (λ c, negb (is_Do_initialize c)) cs = true →
  uninitialized_inv w → uninitialized_inv (run_calls repr cs w).
Proof.
  revert w. induction cs as [|c cs IH]; intros w Hcs H; [done|].
  cbn in Hcs |- *. apply andb_prop in Hcs as [Hc Hcs]. apply IH; [done|].
  destruct (do_call_cases repr c w) as [(a & Ha & ->)|[_ Hb]].
  - apply perform_uninitialized_inv; [|done].
    destruct c; try discriminate; cbn in Ha.
    + destruct c; try discriminate. by injection Ha as <-.
    + by injection Ha as <-.
  - destruct H as [Hs|[l Hl]].
    + left. by eapply benign_process_start.
    + right. exists l. by eapply benign_fresh_at.
Qed.

Lemma perform_payload_at a l p w : payload_at l p w → payload_at l p (perform a w).
Proof.
  intros (d & Hcon & Hf & Hd). destruct a as [|self data|self]; simpl.
  - pose proof Hcon as (Hi & _). rewrite (Singleton_new_again w l Hi). by exists d.
  - destruct (class_at_cases w self Singleton) as [Hs|Hs].
    + rewrite (constructed_unique w l d self Hcon Hs).
      destruct (initialize_at w l d data Hcon) as [_ Hinit].
      rewrite Hinit by (split; [done|by eexists]). by exists d.
    + unfold initialize. rewrite method_elsewhere by done. by exists d.
  - rewrite get_data_world. by exists d.
Qed.

Lemma run_calls_payload_at repr cs l p w :
  payload_at l p w → payload_at l p (run_calls repr cs w).
Proof.
  revert w. induction cs as [|c cs IH]; intros w H; [done|].
  cbn. apply IH.
  destruct (do_call_cases repr c w) as [(a & _ & ->)|[_ Hb]].
  - by apply perform_payload_at.
  - by eapply benign_payload_at.
Qed.

(** X14.  From a state in which [Singleton] has not been called, and
    whatever calls of the classes of the file a client makes, with any
    arguments (shapes, widgets, pizzas and builders, prototypes and
    clones, the singleton itself): the heap never holds more than one
    instance of [Singleton], and two calls of [Singleton()], anything
    done before and between them, return the same reference. *)
Theorem singleton_among_all_calls (repr : pyval → string) (w0 : world) :
  process_start w0 →
  (∀ cs, (count_instances Singleton (run_calls repr cs w0) ≤ 1)%nat) ∧
  (∀ cs1 cs2, ∃ l w1 w2,
     Singleton_new (run_calls repr cs1 w0) = Ret (VRef l) w1 ∧
     Singleton_new (run_calls repr cs2 w1) = Ret (VRef l) w2 ∧
     class_at w2 (VRef l) = Some Singleton).
Proof.
  intros Hs. split.
  - intros cs.
    destruct (run_calls_singleton_inv repr cs w0 (or_introl Hs))
      as [[_ ->]|(l & d & (_ & _ & ->) & _)]; lia.
  - intros cs1 cs2.
    destruct (Singleton_new_singleton_inv _ (run_calls_singleton_inv repr cs1 w0 (or_introl Hs)))
      as (l & w1 & E1 & H1).
    pose proof (run_calls_singleton_at repr cs2 l w1 H1) as (d & (Hi & Hl & Hc) & _).
    exists l, w1, (run_calls repr cs2 w1). split; [exact E1|]. split.
    + by apply Singleton_new_again.
    + unfold class_at. by rewrite Hl.
Qed.

(** X15.  The payload is set once.  From a state in which [Singleton]
    has not been called and after any calls that are not [initialize]:
    [Singleton().initialize(data)] returns, for [data] that is not a list,
    and from then on, whatever calls of the classes of the file follow,
    further calls of [initialize] with other data among them,
    [get_data()] on the instance returns [data]. *)
Theorem payload_is_set_once (repr : pyval → string) (w0 : world)
    (cs1 : list call) (data : pyval) :
  process_start w0 →
  forallb (λ c, negb (is_Do_initialize c)) cs1 = true →
  list_free data = true →
  ∃ s w1 w2,
    Singleton_new (run_calls repr cs1 w0) = Ret s w1 ∧
    initialize s data w1 = Ret VNone w2 ∧
    ∀ cs2, get_data s (run_calls repr cs2 w2) = Ret data (run_calls repr cs2 w2).
Proof.
  intros Hs Hcs _.
  destruct (Singleton_new_uninitialized_inv _
              (run_calls_uninitialized_inv repr cs1 w0 Hcs (or_introl Hs)))
    as (l & w1 & E & (d & Hcon & Hd)).
  destruct (initialize_at w1 l d data Hcon) as [Hfresh _].
  exists (VRef l), w1. eexists. split; [exact E|]. split; [exact (Hfresh Hd)|].
  intros cs2.
  assert (payload_at l data
            (store w1 l (Instance Singleton
               (dict_set (dict_set d "data" data) "_initialized" (VBool true))))) as Hp.
  { eexists. split; [by eapply constructed_store|]. split.
    - apply dict_get_set_eq.
    - rewrite dict_get_set_ne by discriminate. apply dict_get_set_eq. }
  destruct (run_calls_payload_at repr cs2 l data _ Hp) as (dd & (_ & Hl & _) & _ & Hdata).
  erewrite get_data_at; [|exact Hl|done]. cbn [dict]. by rewrite Hdata.
Qed.

(** ** The iterator of squares *)



(** X17.  Once a [for] loop over a [Squares] object has ended the object
    is used up, [__iter__] returning the object itself: [__next__] raises
    [StopIteration] again and leaves it as it is, and a second loop over
    it sees nothing. *)
Theorem Squares_is_used_up (length : Z) (fuel fuel' : nat)
    (seen : list Z) (it : Squares) :
  Squares_for fuel (Squares_init length) = Some (seen, it) →
  (0 < fuel')%nat →
  Squares_next it = (None, it) ∧
  Squares_for fuel' it = Some ([], it).
Proof.
  intros Hfor Hf'.
  assert (Squares_length it ≤ Squares_current it)%Z as Hdone.
  { unfold Squares_for, Squares_iter, Squares_init in Hfor.
    remember {| Squares_length := length; Squares_current := 0 |} as s eqn:Hs.
    clear Hs. revert s seen Hfor.
    induction fuel as [|fuel IH]; intros s seen Hfor; [done|].
    cbn [Squares_drain] in Hfor. unfold Squares_next in Hfor.
    destruct (Z.geb_spec (Squares_current s) (Squares_length s)) as [Hge|Hlt].
    - injection Hfor as _ <-. lia.
    - destruct (Squares_drain fuel _) as [[vs it'']|] eqn:E; [|done].
      injection Hfor as _ <-. by eapply IH. }
  assert (Squares_next it = (None, it)) as Hnext.
  { unfold Squares_next. destruct (Z.geb_spec (Squares_current it) (Squares_length it)); [done|lia]. }
  split; [done|].
  destruct fuel' as [|fuel']; [lia|].
  unfold Squares_for, Squares_iter. cbn [Squares_drain]. by rewrite Hnext.
Qed.

(** ** The further properties at concrete states *)

Lemma created_shape_is_new_witness :
  let w1 := extended initial_world (Instance Circle []) in
  (create_shape "circle" initial_world = Ret (VRef 0) w1 ∧ VRef 0 ≠ VNone) ∧
  class_at initial_world (VRef 0) = None ∧
  create_shape "Square" w1 = Ret (VRef 1) (extended w1 (Instance Square [])) ∧
  VRef 1 ≠ VRef 0.
Proof.
  intros w1.
  assert (H1 : create_shape "circle" initial_world = Ret (VRef 0) w1) by reflexivity.
  assert (H2 : VRef 0 ≠ VNone) by discriminate.
  split; [exact (conj H1 H2)|].
  destruct (created_shape_is_new initial_world w1 "circle" (VRef 0) H1 H2)
    as (Hnew & _ & Hlater).
  split; [exact Hnew|].
  assert (H3 : create_shape "Square" w1 = Ret (VRef 1) (extended w1 (Instance Square [])))
    by reflexivity.
  split; [exact H3|]. exact (Hlater "Square" (VRef 1) _ H3).
Defined.

Lemma create_shape_wants_six_letters_witness :
  String.length "" ≠ 6 ∧
  create_shape "" initial_world =
    Ret VNone (printed initial_world "Shape type '' not recognized.").
Proof.
  assert (H : String.length "" ≠ 6) by discriminate.
  split; [exact H|]. exact (create_shape_wants_six_letters initial_world "" H).
Defined.

Lemma create_ui_without_a_concrete_factory_witness :
  let repr := fun _ : pyval => "" in
  let w := extended initial_world (Instance GUIFactory []) in
  create_ui repr (VRef 0) w =
    Raise (NotImplementedError "Subclasses must implement create_button") w ∧
  create_ui repr VNone w = Raise (AttributeError "create_button") w.
Proof.
  intros repr w. split.
  - exact (proj1 (create_ui_without_a_concrete_factory repr w (VRef 0))
             GUIFactory eq_refl eq_refl).
  - apply (proj2 (create_ui_without_a_concrete_factory repr w VNone)).
    intros l. discriminate.
Defined.

Lemma create_ui_on_a_concrete_factory_witness :
  let repr := fun _ : pyval => "" in
  let w := extended initial_world (Instance MacGUIFactory []) in
  (class_at w (VRef 0) = Some MacGUIFactory ∧ platform MacGUIFactory = Some "Mac") ∧
  ∃ cb ct,
    issubclass cb Button = true ∧ widget_platform cb = Some "Mac" ∧
    issubclass ct TextBox = true ∧ widget_platform ct = Some "Mac" ∧
    create_ui repr (VRef 0) w =
      Ret VNone
          {| heap := [Instance MacGUIFactory []; Instance cb []; Instance ct []];
             Singleton_instance := VNone;
             stdout := ["Rendering a Mac button"; "Displaying a Mac text box"] |}.
Proof.
  intros repr w.
  assert (H1 : class_at w (VRef 0) = Some MacGUIFactory) by reflexivity.
  assert (H2 : platform MacGUIFactory = Some "Mac") by reflexivity.
  split; [exact (conj H1 H2)|].
  exact (create_ui_on_a_concrete_factory repr w (VRef 0) MacGUIFactory "Mac" H1 H2).
Defined.

Lemma builder_chain_fields_witness :
  let c := MeatLoversPizzaBuilder in
  let ss := [Add_meats (VList [VStr "Ham"]); Add_dough (VStr "Thin");
             Add_topping (VStr "Olives"); Add_cheese (VStr "Feta")] in
  (issubclass c PizzaBuilder = true ∧ forallb (applicable c) ss = true ∧
   forallb unshared_arg ss = true) ∧
  ∃ b p w1 w2,
    instantiate c initial_world = Ret b w1 ∧
    run_steps ss b w1 = Ret b w2 ∧
    build b w2 = Ret p w2 ∧
    pizza_fields w2 p =
      [Some (VStr "Thin"); Some (VStr "Tomato");
       Some (VList [VList [VStr "Mozzarella"; VStr "Cheddar"]; VStr "Feta"]);
       Some (VList [VStr "Ham"; VStr "Olives"])].
Proof.
  intros c ss.
  assert (H1 : issubclass c PizzaBuilder = true) by reflexivity.
  assert (H2 : forallb (applicable c) ss = true) by reflexivity.
  assert (H3 : forallb unshared_arg ss = true) by reflexivity.
  split; [exact (conj H1 (conj H2 H3))|].
  exact (builder_chain_fields initial_world c ss H1 H2 H3).
Defined.

Lemma preset_pizza_is_not_printable_witness :
  let repr := fun _ : pyval => "" in
  let c := VeggiePizzaBuilder in
  let ss := [Add_veggies (VList [VStr "Pepper"]); Add_dough (VStr "Thick")] in
  (issubclass c PizzaBuilder = true ∧ c ≠ PizzaBuilder ∧
   forallb (applicable c) ss = true ∧
   forallb unshared_arg ss = true ∧
   forallb plain (dough_args ss ++ sauce_args ss) = true) ∧
  ∃ b p w1 w2,
    instantiate c initial_world = Ret b w1 ∧
    run_steps ss b w1 = Ret b w2 ∧
    build b w2 = Ret p w2 ∧
    Pizza_str repr p w2 = Raise (TypeError "sequence item: expected str instance") w2.
Proof.
  intros repr c ss.
  assert (H1 : issubclass c PizzaBuilder = true) by reflexivity.
  assert (H2 : c ≠ PizzaBuilder) by discriminate.
  assert (H3 : forallb (applicable c) ss = true) by reflexivity.
  assert (H4 : forallb unshared_arg ss = true) by reflexivity.
  assert (H5 : forallb plain (dough_args ss ++ sauce_args ss) = true) by reflexivity.
  split; [exact (conj H1 (conj H2 (conj H3 (conj H4 H5))))|].
  exact (preset_pizza_is_not_printable repr initial_world c ss H1 H2 H3 H4 H5).
Defined.

Lemma Pizza_str_joins_strings_witness :
  let repr := fun _ : pyval => "" in
  let w := extended initial_world
             (Instance Pizza (pizza_dict (VStr "Thin") VNone
                                [VStr "Mozzarella"; VStr "Cheddar"] [])) in
  (attr w (VRef 0) "dough" = Some (VStr "Thin") ∧
   attr w (VRef 0) "sauce" = Some VNone ∧
   attr w (VRef 0) "cheese" = Some (VList [VStr "Mozzarella"; VStr "Cheddar"]) ∧
   attr w (VRef 0) "toppings" = Some (VList []) ∧
   plain (VStr "Thin") = true ∧ plain VNone = true) ∧
  Pizza_str repr (VRef 0) w =
    Ret (VStr ("Dough: Thin" +:+ newline +:+ "Sauce: None" +:+ newline +:+
               "Cheese: Mozzarella, Cheddar" +:+ newline +:+ "Toppings: ")) w.
Proof.
  intros repr w.
  assert (H1 : attr w (VRef 0) "dough" = Some (VStr "Thin")) by reflexivity.
  assert (H2 : attr w (VRef 0) "sauce" = Some VNone) by reflexivity.
  assert (H3 : attr w (VRef 0) "cheese" = Some (VList [VStr "Mozzarella"; VStr "Cheddar"]))
    by reflexivity.
  assert (H4 : attr w (VRef 0) "toppings" = Some (VList [])) by reflexivity.
  assert (H5 : plain (VStr "Thin") = true) by reflexivity.
  assert (H6 : plain VNone = true) by reflexivity.
  split; [exact (conj H1 (conj H2 (conj H3 (conj H4 (conj H5 H6)))))|].
  exact (Pizza_str_joins_strings repr w (VRef 0) _ _ _ _ H1 H2 H3 H4 H5 H6).
Defined.

Lemma bulk_step_is_repeated_add_topping_witness :
  let w := extended (extended initial_world
                       (Instance VeggiePizzaBuilder [("pizza", VRef 1)])) veggie_pizza in
  let xs := [VStr "Pepper"; VStr "Onion"] in
  let w2 := extended (extended initial_world
                        (Instance VeggiePizzaBuilder [("pizza", VRef 1)]))
              (Instance Pizza (pizza_dict (VStr "Thin crust") (VStr "Marinara")
                                 [VList [VStr "Mozzarella"]] xs)) in
  (bulk_arg (Add_veggies (VList xs)) = Some (VList xs) ∧
   run_step (Add_veggies (VList xs)) (VRef 0) w = Ret (VRef 0) w2) ∧
  run_steps [Add_topping (VStr "Pepper"); Add_topping (VStr "Onion")] (VRef 0) w =
    Ret (VRef 0) w2.
Proof.
  intros w xs w2.
  assert (H1 : bulk_arg (Add_veggies (VList xs)) = Some (VList xs)) by reflexivity.
  assert (H2 : run_step (Add_veggies (VList xs)) (VRef 0) w = Ret (VRef 0) w2)
    by reflexivity.
  split; [exact (conj H1 H2)|].
  exact (bulk_step_is_repeated_add_topping w w2 (VRef 0) (VRef 0) _ xs H1 H2).
Defined.

Lemma step_of_another_builder_witness :
  let w := extended (extended initial_world
                       (Instance PizzaBuilder [("pizza", VRef 1)])) empty_pizza in
  let s := Add_veggies (VList [VStr "Pepper"]) in
  (class_at w (VRef 0) = Some PizzaBuilder ∧
   issubclass PizzaBuilder (step_owner s) = false) ∧
  run_step s (VRef 0) w = Raise (AttributeError "add_veggies") w.
Proof.
  intros w s.
  assert (H1 : class_at w (VRef 0) = Some PizzaBuilder) by reflexivity.
  assert (H2 : issubclass PizzaBuilder (step_owner s) = false) by reflexivity.
  split; [exact (conj H1 H2)|].
  exact (step_of_another_builder w (VRef 0) PizzaBuilder s H1 H2).
Defined.

Lemma bulk_step_and_its_argument_witness :
  let w := extended (extended initial_world
                       (Instance MeatLoversPizzaBuilder [("pizza", VRef 1)])) empty_pizza in
  (class_at w (VRef 0) = Some MeatLoversPizzaBuilder ∧
   issubclass MeatLoversPizzaBuilder MeatLoversPizzaBuilder = true ∧
   attr w (VRef 0) "pizza" = Some (VRef 1) ∧
   attr w (VRef 1) "toppings" = Some (VList []) ∧
   not_iterable w (VInt 3) = true ∧ not_iterable w (VRef 1) = true) ∧
  run_step (Add_meats (VInt 3)) (VRef 0) w =
    Raise (TypeError "object is not iterable") w ∧
  run_step (Add_meats (VRef 1)) (VRef 0) w =
    Raise (TypeError "object is not iterable") w ∧
  run_step (Add_meats (VList [])) (VRef 0) w = Ret (VRef 0) w.
Proof.
  intros w.
  assert (H1 : class_at w (VRef 0) = Some MeatLoversPizzaBuilder) by reflexivity.
  assert (H2 : issubclass MeatLoversPizzaBuilder MeatLoversPizzaBuilder = true)
    by reflexivity.
  assert (H3 : attr w (VRef 0) "pizza" = Some (VRef 1)) by reflexivity.
  assert (H4 : attr w (VRef 1) "toppings" = Some (VList [])) by reflexivity.
  assert (H5 : not_iterable w (VInt 3) = true) by reflexivity.
  assert (H6 : not_iterable w (VRef 1) = true) by reflexivity.
  split; [exact (conj H1 (conj H2 (conj H3 (conj H4 (conj H5 H6)))))|]. split; [|split].
  - exact (proj1 (bulk_step_and_its_argument w (VRef 0) (VRef 1) _ [] (Add_meats (VInt 3))
                    (VInt 3) H1 H2 H3 H4 eq_refl) H5).
  - exact (proj1 (bulk_step_and_its_argument w (VRef 0) (VRef 1) _ [] (Add_meats (VRef 1))
                    (VRef 1) H1 H2 H3 H4 eq_refl) H6).
  - exact (proj2 (bulk_step_and_its_argument w (VRef 0) (VRef 1) _ [] (Add_meats (VList []))
                    (VList []) H1 H2 H3 H4 eq_refl) eq_refl).
Defined.

Lemma builders_do_not_share_witness :
  let c1 := PizzaBuilder in
  let c2 := VeggiePizzaBuilder in
  let ss := [Add_topping (VStr "Olives"); Add_veggies (VList [])] in
  (issubclass c1 PizzaBuilder = true ∧ issubclass c2 PizzaBuilder = true) ∧
  ∃ b1 b2 p1 p2 w1 w2,
    instantiate c1 initial_world = Ret b1 w1 ∧
    instantiate c2 w1 = Ret b2 w2 ∧
    build b1 w2 = Ret p1 w2 ∧
    build b2 w2 = Ret p2 w2 ∧
    p1 ≠ p2 ∧
    let w3 := world_after (run_steps ss b1 w2) w2 in
    build b2 w3 = Ret p2 w3 ∧
    pizza_fields w3 p2 = pizza_fields w2 p2.
Proof.
  intros c1 c2 ss.
  assert (H1 : issubclass c1 PizzaBuilder = true) by reflexivity.
  assert (H2 : issubclass c2 PizzaBuilder = true) by reflexivity.
  split; [exact (conj H1 H2)|].
  exact (builders_do_not_share initial_world c1 c2 ss H1 H2).
Defined.

Lemma clone_shares_nested_instances_witness :
  let w := extended (extended initial_world (Instance ConcretePrototype2 [("value", VInt 1)]))
                    (Instance ConcretePrototype1 [("data", VRef 0)]) in
  let self := VRef 1 in
  (class_at w self = Some ConcretePrototype1 ∧
   issubclass ConcretePrototype1 Prototype = true ∧
   attr w self "data" = Some (VRef 0) ∧
   heap w !! 0 = Some (Instance ConcretePrototype2 [("value", VInt 1)]) ∧
   self ≠ VRef 0) ∧
  ∃ copy w1 w2,
    clone self w = Ret copy w1 ∧
    length (heap w1) = 3 ∧
    attr w1 copy "data" = Some (VRef 0) ∧
    (let! held := getattr copy "data" in setattr held "value" (VInt 2)) w1 = Ret tt w2 ∧
    (let! held := getattr self "data" in getattr held "value") w2 = Ret (VInt 2) w2.
Proof.
  intros w self.
  assert (H1 : class_at w self = Some ConcretePrototype1) by reflexivity.
  assert (H2 : issubclass ConcretePrototype1 Prototype = true) by reflexivity.
  assert (H3 : attr w self "data" = Some (VRef 0)) by reflexivity.
  assert (H4 : heap w !! 0 = Some (Instance ConcretePrototype2 [("value", VInt 1)]))
    by reflexivity.
  assert (H5 : self ≠ VRef 0) by discriminate.
  split; [exact (conj H1 (conj H2 (conj H3 (conj H4 H5))))|].
  destruct (clone_shares_nested_instances w self _ "data" 0 _ H1 H2 H3 H4 H5)
    as (copy & w1 & Hclone & Hlen & Hattr & Hshare).
  destruct (Hshare "value" (VInt 2)) as (w2 & Hset & Hget).
  exists copy, w1, w2. exact (conj Hclone (conj Hlen (conj Hattr (conj Hset Hget)))).
Defined.

Lemma singleton_among_all_calls_witness :
  let repr := fun _ : pyval => "" in
  process_start initial_world ∧
  (count_instances Singleton
     (run_calls repr [Do_instantiate Singleton; Do_create_shape "circle";
                      Do_clone (VRef 0); Do_instantiate Singleton] initial_world) ≤ 1)%nat ∧
  (∃ l w1 w2,
     Singleton_new (run_calls repr [Do_instantiate PizzaBuilder] initial_world) = Ret (VRef l) w1 ∧
     Singleton_new (run_calls repr [Do_step (Add_dough (VStr "Thin")) (VRef 0);
                                    Do_clone (VRef 2)] w1) = Ret (VRef l) w2 ∧
     class_at w2 (VRef l) = Some Singleton).
Proof.
  intros repr.
  assert (H : process_start initial_world) by (split; reflexivity).
  split; [exact H|].
  destruct (singleton_among_all_calls repr initial_world H) as (Hmost & Hsame).
  split; [apply Hmost | apply Hsame].
Defined.

Lemma payload_is_set_once_witness :
  let repr := fun _ : pyval => "" in
  let cs1 := [Do_instantiate Singleton; Do_get_data (VRef 0); Do_create_shape "circle"] in
  (process_start initial_world ∧
   forallb (λ c, negb (is_Do_initialize c)) cs1 = true ∧
   list_free (VInt 7) = true) ∧
  ∃ s w1 w2,
    Singleton_new (run_calls repr cs1 initial_world) = Ret s w1 ∧
    initialize s (VInt 7) w1 = Ret VNone w2 ∧
    get_data s (run_calls repr [Do_initialize s (VInt 8); Do_clone s] w2) =
      Ret (VInt 7) (run_calls repr [Do_initialize s (VInt 8); Do_clone s] w2).
Proof.
  intros repr cs1.
  assert (H1 : process_start initial_world) by (split; reflexivity).
  assert (H2 : forallb (λ c, negb (is_Do_initialize c)) cs1 = true) by reflexivity.
  assert (H3 : list_free (VInt 7) = true) by reflexivity.
  split; [exact (conj H1 (conj H2 H3))|].
  destruct (payload_is_set_once repr initial_world cs1 (VInt 7) H1 H2 H3)
    as (s & w1 & w2 & E1 & E2 & Hever).
  exists s, w1, w2. exact (conj E1 (conj E2 (Hever _))).
Defined.


Lemma Squares_is_used_up_witness :
  let it := {| Squares_length := 3; Squares_current := 3 |} in
  (Squares_for 4 (Squares_init 3) = Some ([0; 1; 4]%Z, it) ∧ (0 < 1)%nat) ∧
  Squares_next it = (None, it) ∧
  Squares_for 1 it = Some ([], it).
Proof.
  intros it.
  assert (H1 : Squares_for 4 (Squares_init 3) = Some ([0; 1; 4]%Z, it)) by reflexivity.
  assert (H2 : (0 < 1)%nat) by lia.
  split; [exact (conj H1 H2)|].
  exact (Squares_is_used_up 3 4 1 _ it H1 H2).
Defined.
